(** * OWLS storefront: API client, auth store and cart store

    A shallow embedding of the request/response glue of the frontend:

    - [lib/api] (axios instance with a request interceptor that attaches the
      bearer token and a response interceptor that refreshes the access token
      on a 401 and re-issues the request),
    - [store/auth-store] (zustand store: login, register, logout,
      fetchProfile, updateProfile, setUser),
    - [store/cart-store] (zustand store: fetchCart, addToCart,
      updateQuantity, removeFromCart, clearCart).

    Asynchronous code is embedded in a resumption monad: a computation runs
    synchronously on the world (cookies, localStorage, location, the two
    stores) until it awaits a network call, where it suspends with a
    continuation.  [run] drives one computation to completion against a
    backend; [spawn] and [deliver] interleave several of them the way the
    browser's event loop does. *)

From stdpp Require Import gmap strings list pretty.

Set Warnings "-register-all".

Open Scope string_scope.
Open Scope Z_scope.
Open Scope list_scope.

(** ** JavaScript values

    Payloads are [any] in the source, so they are embedded as untyped JSON
    values.  Numbers are integers here: the stores never compute with them. *)

Inductive JSValue : Type :=
| JUndefined
| JNull
| JBool (b : bool)
| JNum (n : Z)
| JStr (s : string)
| JArr (xs : list JSValue)
| JObj (fields : list (string * JSValue)).

(** ToBoolean. *)
Definition truthy (v : JSValue) : bool :=
  match v with
  | JUndefined | JNull => false
  | JBool b => b
  | JNum n => negb (n =? 0)
  | JStr s => negb (String.eqb s "")
  | JArr _ | JObj _ => true
  end.

(** [a || b] *)
Definition js_or (a b : JSValue) : JSValue := if truthy a then a else b.

Fixpoint assoc (k : string) (fields : list (string * JSValue)) : JSValue :=
  match fields with
  | [] => JUndefined
  | (k', v) :: rest => if String.eqb k k' then v else assoc k rest
  end.

(** [v?.k]: the names read by the program ([access], [refresh], [cart],
    [user], [tokens], [error], [message], [items]) are own properties of
    objects only, so every other value yields [undefined]. *)
Definition opt_prop (v : JSValue) (k : string) : JSValue :=
  match v with
  | JObj fields => assoc k fields
  | _ => JUndefined
  end.

(** ToString, as applied by template literals and by js-cookie when it
    writes a value. *)
Fixpoint js_to_string (v : JSValue) : string :=
  match v with
  | JUndefined => "undefined"
  | JNull => "null"
  | JBool true => "true"
  | JBool false => "false"
  | JNum n => pretty n
  | JStr s => s
  | JArr xs =>
      (fix join (xs : list JSValue) : string :=
         match xs with
         | [] => ""
         | x :: rest =>
             let sx := match x with
                       | JUndefined | JNull => ""
                       | _ => js_to_string x
                       end in
             match rest with
             | [] => sx
             | _ => sx +:+ "," +:+ join rest
             end
         end) xs
  | JObj _ => "[object Object]"
  end.

(** ** Requests, responses, errors *)

Inductive Method : Type := GET | POST | PATCH.

(** An axios request config, reduced to the fields the program sets. *)
Record Config : Type := mkConfig {
  method : Method;
  url : string;
  body : JSValue;
  Authorization : option string;
  _retry : bool
}.

Definition with_Authorization (h : string) (c : Config) : Config :=
  mkConfig (method c) (url c) (body c) (Some h) (_retry c).

Definition with_retry (b : bool) (c : Config) : Config :=
  mkConfig (method c) (url c) (body c) (Authorization c) b.

Record Response : Type := mkResponse {
  status : Z;
  data : JSValue
}.

Inductive JSError : Type :=
| AxiosError (config : Config) (response : option Response)
| TypeError (msg : string)
| Error (msg : string).

(** A promise settles one of two ways. *)
Inductive Result (A : Type) : Type :=
| Resolved (a : A)
| Rejected (e : JSError).
Arguments Resolved {A} a.
Arguments Rejected {A} e.

(** [v.k]: property access throws on [undefined] and [null]. *)
Definition get_prop (v : JSValue) (k : string) : Result JSValue :=
  match v with
  | JUndefined | JNull =>
      Rejected (TypeError ("Cannot read properties of " +:+ js_to_string v))
  | _ => Resolved (opt_prop v k)
  end.

(** [error.response?.status] and [error.response?.data]. *)
Definition error_status (e : JSError) : option Z :=
  match e with
  | AxiosError _ (Some r) => Some (status r)
  | _ => None
  end.

Definition error_data (e : JSError) : JSValue :=
  match e with
  | AxiosError _ (Some r) => data r
  | _ => JUndefined
  end.

(** What goes over the network: a request through the [api] instance, or
    the bare [axios.post(url, body)] of the refresh flow. *)
Inductive NetCall : Type :=
| ViaApi (config : Config)
| ViaAxios (url : string) (body : JSValue).

(** What comes back: an HTTP reply, or nothing (network failure). *)
Inductive Outcome : Type :=
| Reply (r : Response)
| NoReply.

(** The backend is any function of the calls made so far (most recent
    first) and the current call. *)
Definition Backend : Type := list NetCall → NetCall → Outcome.

(** ** The world *)

Record AuthState : Type := mkAuthState {
  user : JSValue;
  isAuthenticated : bool;
  auth_isLoading : bool
}.

Record CartState : Type := mkCartState {
  cart : JSValue;
  cart_isLoading : bool;
  error : JSValue
}.

(** The browser side: cookies (js-cookie), localStorage and
    [window.location.href].  localStorage holds the persisted snapshots
    unserialized. *)
Record Browser : Type := mkBrowser {
  cookies : gmap string string;
  localStorage : gmap string JSValue;
  href : string
}.

(** [window] is [None] when the code runs outside a browser
    ([typeof window === 'undefined']). *)
Record World : Type := mkWorld {
  window : option Browser;
  authStore : AuthState;
  cartStore : CartState;
  net_log : list NetCall
}.

Definition with_window (b : option Browser) (w : World) : World :=
  mkWorld b (authStore w) (cartStore w) (net_log w).

Definition with_authStore (s : AuthState) (w : World) : World :=
  mkWorld (window w) s (cartStore w) (net_log w).

Definition with_cartStore (s : CartState) (w : World) : World :=
  mkWorld (window w) (authStore w) s (net_log w).

Definition sent (c : NetCall) (w : World) : World :=
  mkWorld (window w) (authStore w) (cartStore w) (c :: net_log w).

(** ** Asynchronous computations *)

Inductive Step (A : Type) : Type :=
| Done (w : World) (r : Result A)
| Await (w : World) (c : NetCall) (k : Outcome → World → Step A)
| Starved.
Arguments Done {A} w r.
Arguments Await {A} w c k.
Arguments Starved {A}.

Definition Async (A : Type) : Type := World → Step A.

Definition ret {A} (a : A) : Async A := fun w => Done w (Resolved a).
Definition throw {A} (e : JSError) : Async A := fun w => Done w (Rejected e).
Definition settle {A} (r : Result A) : Async A := fun w => Done w r.

Fixpoint step_bind {A B} (s : Step A) (f : A → Async B) : Step B :=
  match s with
  | Done w (Resolved a) => f a w
  | Done w (Rejected e) => Done w (Rejected e)
  | Await w c k => Await w c (fun o w' => step_bind (k o w') f)
  | Starved => Starved
  end.

Definition bind {A B} (m : Async A) (f : A → Async B) : Async B :=
  fun w => step_bind (m w) f.

Notation "'let*' x ':=' m 'in' k" := (bind m (fun x => k))
  (at level 10, x name, m at level 100, k at level 200).
Notation "m >> k" := (bind m (fun _ => k))
  (at level 90, right associativity).

(** [try { m } catch (e) { h e }] *)
Fixpoint step_catch {A} (s : Step A) (h : JSError → Async A) : Step A :=
  match s with
  | Done w (Resolved a) => Done w (Resolved a)
  | Done w (Rejected e) => h e w
  | Await w c k => Await w c (fun o w' => step_catch (k o w') h)
  | Starved => Starved
  end.

Definition try_catch {A} (m : Async A) (h : JSError → Async A) : Async A :=
  fun w => step_catch (m w) h.

(** [try { m } finally { fin }]: the completion of [m] stands unless [fin]
    itself throws. *)
Fixpoint step_finally {A} (s : Step A) (fin : Async unit) : Step A :=
  match s with
  | Done w r => step_bind (fin w) (fun _ => settle r)
  | Await w c k => Await w c (fun o w' => step_finally (k o w') fin)
  | Starved => Starved
  end.

Definition try_finally {A} (m : Async A) (fin : Async unit) : Async A :=
  fun w => step_finally (m w) fin.

(** Synchronous reads and writes of the world. *)
Definition gets {A} (f : World → A) : Async A := fun w => Done w (Resolved (f w)).
Definition modify (f : World → World) : Async unit := fun w => Done (f w) (Resolved tt).

(** axios settles a reply by its status (the default [validateStatus]). *)
Definition validateStatus (s : Z) : bool := (200 <=? s) && (s <? 300).

Definition settle_reply (config : Config) (o : Outcome) : Result Response :=
  match o with
  | Reply r =>
      if validateStatus (status r) then Resolved r
      else Rejected (AxiosError config (Some r))
  | NoReply => Rejected (AxiosError config None)
  end.

(** The one suspension point: send [c] and wait for its outcome. *)
Definition await_call (c : NetCall) (config : Config) : Async Response :=
  fun w => Await w c (fun o w' => Done w' (settle_reply config o)).

(** Sequential execution: every awaited call is answered by the backend
    before anything else happens. *)
Fixpoint run (backend : Backend) {A} (s : Step A) : option (World * Result A) :=
  match s with
  | Done w r => Some (w, r)
  | Await w c k => run backend (k (backend (net_log w) c) (sent c w))
  | Starved => None
  end.

(** ** The event loop

    Several computations in flight at once: each runs until it suspends,
    and a suspended one resumes when its reply is delivered.  Replies may
    be delivered in any order. *)

Record EventLoop (A : Type) : Type := mkLoop {
  loop_world : World;
  in_flight : list (NetCall * (Outcome → World → Step A));
  settled : list (Result A)
}.
Arguments mkLoop {A} _ _ _.
Arguments loop_world {A} _.
Arguments in_flight {A} _.
Arguments settled {A} _.

Definition advance {A} (s : Step A) (l : EventLoop A) : EventLoop A :=
  match s with
  | Done w r => mkLoop w (in_flight l) (settled l ++ [r])
  | Await w c k => mkLoop (sent c w) (in_flight l ++ [(c, k)]) (settled l)
  | Starved => l
  end.

(** Start a computation: it runs up to its first suspension. *)
Definition spawn {A} (task : Async A) (l : EventLoop A) : EventLoop A :=
  advance (task (loop_world l)) l.

(** Deliver outcome [o] to the [i]-th call in flight. *)
Definition deliver {A} (i : nat) (o : Outcome) (l : EventLoop A) : EventLoop A :=
  match in_flight l !! i with
  | Some (c, k) =>
      advance (k o (loop_world l))
              (mkLoop (loop_world l) (delete i (in_flight l)) (settled l))
  | None => l
  end.

(** ** Browser primitives *)

(** js-cookie: [Cookies.get] yields [undefined] and [Cookies.set] /
    [Cookies.remove] do nothing when there is no document.  Expiry dates
    are real time and are left out: a cookie lives until it is removed. *)
Definition Cookies_get (name : string) (w : World) : option string :=
  match window w with
  | Some b => cookies b !! name
  | None => None
  end.

Definition Cookies_set (name value : string) (w : World) : World :=
  match window w with
  | Some b =>
      with_window (Some (mkBrowser (<[name := value]> (cookies b))
                                   (localStorage b) (href b))) w
  | None => w
  end.

Definition Cookies_remove (name : string) (w : World) : World :=
  match window w with
  | Some b =>
      with_window (Some (mkBrowser (delete name (cookies b))
                                   (localStorage b) (href b))) w
  | None => w
  end.

Definition localStorage_getItem (key : string) (w : World) : option JSValue :=
  match window w with
  | Some b => localStorage b !! key
  | None => None
  end.

Definition localStorage_setItem (key : string) (v : JSValue) (w : World) : World :=
  match window w with
  | Some b =>
      with_window (Some (mkBrowser (cookies b)
                                   (<[key := v]> (localStorage b)) (href b))) w
  | None => w
  end.

Definition localStorage_removeItem (key : string) (w : World) : World :=
  match window w with
  | Some b =>
      with_window (Some (mkBrowser (cookies b)
                                   (delete key (localStorage b)) (href b))) w
  | None => w
  end.

(** [window.location.href = target] *)
Definition location_assign (target : string) (w : World) : World :=
  match window w with
  | Some b => with_window (Some (mkBrowser (cookies b) (localStorage b) target)) w
  | None => w
  end.

Definition location_href (w : World) : option string :=
  match window w with
  | Some b => Some (href b)
  | None => None
  end.

(** A cookie read, as the JavaScript value the program tests. *)
Definition cookie_value (o : option string) : JSValue :=
  match o with
  | Some s => JStr s
  | None => JUndefined
  end.

(** zustand's [persist] middleware: after every [set], the partialized
    state is written under the store's name (when storage exists). *)
Definition persist (name : string) (partialize : World → JSValue) (w : World) : World :=
  localStorage_setItem name (JObj [("state", partialize w); ("version", JNum 0)]) w.

(** ** lib/api *)

Section Storefront.

(** [process.env.NEXT_PUBLIC_API_URL || 'http://localhost:8000/api'] *)
Variable NEXT_PUBLIC_API_URL : option string.

Definition API_URL : string :=
  js_to_string (js_or (cookie_value NEXT_PUBLIC_API_URL) (JStr "http://localhost:8000/api")).

(** Request interceptor: attach the bearer token when there is one. *)
Definition request_interceptor (config : Config) : Async Config :=
  let* token := gets (Cookies_get "access_token") in
  if truthy (cookie_value token)
  then ret (with_Authorization ("Bearer " +:+ js_to_string (cookie_value token)) config)
  else ret config.

(** The [catch (refreshError)] block of the response interceptor. *)
Definition on_refresh_failure : Async unit :=
  modify (Cookies_remove "access_token") >>
  modify (Cookies_remove "refresh_token") >>
  let* win := gets window in
  match win with
  | Some _ =>
      modify (localStorage_removeItem "auth-storage") >>
      modify (location_assign "/login")
  | None => ret tt
  end.

(** The config of the bare [axios.post] of the refresh flow. *)
Definition refresh_config (refreshToken : string) : Config :=
  mkConfig POST (API_URL +:+ "/users/token/refresh/")
           (JObj [("refresh", JStr refreshToken)]) None false.

Definition refresh_call (refreshToken : string) : NetCall :=
  ViaAxios (API_URL +:+ "/users/token/refresh/") (JObj [("refresh", JStr refreshToken)]).

(** The [try] block.  It either throws, or reaches
    [return api(originalRequest)]: the promise of the re-issued request is
    returned without [await], so the [try] ends there and yields the request
    to re-issue; a rejection of the re-issued request is not seen by the
    [catch] clause. *)
Definition refresh_flow (originalRequest : Config) : Async Config :=
  let* refreshToken := gets (Cookies_get "refresh_token") in
  if truthy (cookie_value refreshToken) then
    let token := js_to_string (cookie_value refreshToken) in
    let* response := await_call (refresh_call token) (refresh_config token) in
    let* access := settle (get_prop (data response) "access") in
    modify (Cookies_set "access_token" (js_to_string access)) >>
    ret (with_Authorization ("Bearer " +:+ js_to_string access) originalRequest)
  else
    throw (Error "No refresh token").

(** [error.response?.status === 401] *)
Definition status_is_401 (error : JSError) : bool :=
  match error_status error with
  | Some s => s =? 401
  | None => false
  end.

(** Response interceptor, rejection handler.  [api] is the client itself,
    which the handler calls to re-issue the request.  [originalRequest] is
    [error.config]: setting [_retry] on it changes the error object too. *)
Definition response_interceptor_rejected
    (api : Config → Async Response) (error : JSError) : Async Response :=
  match error with
  | AxiosError originalRequest response =>
      if status_is_401 error && negb (_retry originalRequest) then
        let originalRequest := with_retry true originalRequest in
        let error := AxiosError originalRequest response in
        let* reissue :=
          try_catch
            (let* request := refresh_flow originalRequest in ret (Some request))
            (fun refreshError => on_refresh_failure >> ret None) in
        match reissue with
        | Some request => api request
        | None => throw error
        end
      else throw error
  | _ => throw error
  end.

(** Response interceptor, fulfilment handler: [(response) => response]. *)
Definition response_interceptor_fulfilled (response : Response) : Async Response :=
  ret response.

(** One request through the instance: request interceptor, adapter,
    response interceptor.  The handler re-enters the client with
    [originalRequest], whose own properties ([_retry] among them) axios
    carries over into the config of the re-issued request.  The definition
    is by recursion on a bound on the nesting depth. *)
Fixpoint api_rec (fuel : nat) (config : Config) : Async Response :=
  match fuel with
  | O => fun _ => Starved
  | S fuel' =>
      let* config := request_interceptor config in
      try_catch
        (let* response := await_call (ViaApi config) config in
         response_interceptor_fulfilled response)
        (response_interceptor_rejected (api_rec fuel'))
  end.

(** A re-issued request carries [_retry], so its handler never re-enters:
    depth two is enough (see [api_rec_enough]). *)
Definition api : Config → Async Response := api_rec 2.

Definition api_get (path : string) : Async Response :=
  api (mkConfig GET path JUndefined None false).

Definition api_post (path : string) (payload : JSValue) : Async Response :=
  api (mkConfig POST path payload None false).

Definition api_patch (path : string) (payload : JSValue) : Async Response :=
  api (mkConfig PATCH path payload None false).

(** ** store/auth-store *)

(** [partialize: (state) => ({ user, isAuthenticated })] under the name
    ['auth-storage']. *)
Definition auth_partialize (w : World) : JSValue :=
  JObj [("user", user (authStore w));
        ("isAuthenticated", JBool (isAuthenticated (authStore w)))].

(** [set(partial)] of the auth store. *)
Definition set_auth (partial : AuthState → AuthState) : Async unit :=
  modify (fun w =>
    persist "auth-storage" auth_partialize (with_authStore (partial (authStore w)) w)).

Definition put_user (v : JSValue) (s : AuthState) : AuthState :=
  mkAuthState v (isAuthenticated s) (auth_isLoading s).

Definition put_isAuthenticated (b : bool) (s : AuthState) : AuthState :=
  mkAuthState (user s) b (auth_isLoading s).

Definition put_auth_isLoading (b : bool) (s : AuthState) : AuthState :=
  mkAuthState (user s) (isAuthenticated s) b.

Definition fetchProfile : Async unit :=
  try_catch
    (let* response := api_get "/users/profile/" in
     set_auth (fun s => put_isAuthenticated true (put_user (data response) s)))
    (fun error =>
     set_auth (fun s => put_isAuthenticated false (put_user JNull s))).

Definition login (email password : string) : Async unit :=
  set_auth (put_auth_isLoading true) >>
  try_finally
    (let* response :=
       api_post "/users/login/"
                (JObj [("email", JStr email); ("password", JStr password)]) in
     (* const { access, refresh } = response.data *)
     let* access := settle (get_prop (data response) "access") in
     let* refresh := settle (get_prop (data response) "refresh") in
     modify (Cookies_set "access_token" (js_to_string access)) >>
     modify (Cookies_set "refresh_token" (js_to_string refresh)) >>
     fetchProfile >>
     set_auth (put_isAuthenticated true))
    (set_auth (put_auth_isLoading false)).

Definition register (registerData : JSValue) : Async unit :=
  set_auth (put_auth_isLoading true) >>
  try_finally
    (let* response := api_post "/users/register/" registerData in
     (* const { tokens, user } = response.data *)
     let* tokens := settle (get_prop (data response) "tokens") in
     let* user := settle (get_prop (data response) "user") in
     let* access := settle (get_prop tokens "access") in
     modify (Cookies_set "access_token" (js_to_string access)) >>
     let* refresh := settle (get_prop tokens "refresh") in
     modify (Cookies_set "refresh_token" (js_to_string refresh)) >>
     set_auth (fun s => put_isAuthenticated true (put_user user s)))
    (set_auth (put_auth_isLoading false)).

Definition logout : Async unit :=
  try_finally
    (try_catch
       (let* refreshToken := gets (Cookies_get "refresh_token") in
        if truthy (cookie_value refreshToken) then
          api_post "/users/logout/"
                   (JObj [("refresh", cookie_value refreshToken)]) >>
          ret tt
        else ret tt)
       (fun error => ret tt))
    (modify (Cookies_remove "access_token") >>
     modify (Cookies_remove "refresh_token") >>
     set_auth (fun s => put_isAuthenticated false (put_user JNull s))).

Definition updateProfile (profileData : JSValue) : Async unit :=
  let* response := api_patch "/users/profile/" profileData in
  let* user := settle (get_prop (data response) "user") in
  set_auth (put_user user).

Definition setUser (user : JSValue) : Async unit :=
  set_auth (fun s => put_isAuthenticated (truthy user) (put_user user s)).

(** ** store/cart-store *)

(** [partialize: (state) => ({ cart: state.cart })] under the name
    ['cart-storage']. *)
Definition cart_partialize (w : World) : JSValue :=
  JObj [("cart", cart (cartStore w))].

Definition set_cart (partial : CartState → CartState) : Async unit :=
  modify (fun w =>
    persist "cart-storage" cart_partialize (with_cartStore (partial (cartStore w)) w)).

Definition put_cart (v : JSValue) (s : CartState) : CartState :=
  mkCartState v (cart_isLoading s) (error s).

Definition put_cart_isLoading (b : bool) (s : CartState) : CartState :=
  mkCartState (cart s) b (error s).

Definition put_error (v : JSValue) (s : CartState) : CartState :=
  mkCartState (cart s) (cart_isLoading s) v.

(** [error.response?.data?.<field> || fallback] *)
Definition error_message (e : JSError) (field fallback : string) : JSValue :=
  js_or (opt_prop (error_data e) field) (JStr fallback).

Definition fetchCart : Async unit :=
  set_cart (fun s => put_error JNull (put_cart_isLoading true s)) >>
  try_finally
    (try_catch
       (let* response := api_get "/cart/" in
        set_cart (put_cart (data response)))
       (fun error =>
        set_cart (put_error (error_message error "message" "Failed to fetch cart"))))
    (set_cart (put_cart_isLoading false)).

(** [quantity: number = 1]: the default applies when the argument is
    omitted. *)
Definition addToCart (productId : Z) (quantity : option Z) : Async unit :=
  let quantity := default 1 quantity in
  set_cart (fun s => put_error JNull (put_cart_isLoading true s)) >>
  try_finally
    (try_catch
       (let* response :=
          api_post "/cart/add/"
                   (JObj [("product_id", JNum productId); ("quantity", JNum quantity)]) in
        let* snapshot := settle (get_prop (data response) "cart") in
        set_cart (put_cart snapshot))
       (fun error =>
        set_cart (put_error (error_message error "error" "Failed to add to cart")) >>
        throw error))
    (set_cart (put_cart_isLoading false)).

Definition updateQuantity (productId quantity : Z) : Async unit :=
  set_cart (fun s => put_error JNull (put_cart_isLoading true s)) >>
  try_finally
    (try_catch
       (let* response :=
          api_post "/cart/update/"
                   (JObj [("product_id", JNum productId); ("quantity", JNum quantity)]) in
        let* snapshot := settle (get_prop (data response) "cart") in
        set_cart (put_cart snapshot))
       (fun error =>
        set_cart (put_error (error_message error "error" "Failed to update cart")) >>
        throw error))
    (set_cart (put_cart_isLoading false)).

Definition removeFromCart (productId : Z) : Async unit :=
  set_cart (fun s => put_error JNull (put_cart_isLoading true s)) >>
  try_finally
    (try_catch
       (let* response :=
          api_post "/cart/remove/" (JObj [("product_id", JNum productId)]) in
        let* snapshot := settle (get_prop (data response) "cart") in
        set_cart (put_cart snapshot))
       (fun error =>
        set_cart (put_error (error_message error "error" "Failed to remove from cart")) >>
        throw error))
    (set_cart (put_cart_isLoading false)).

Definition clearCart : Async unit :=
  set_cart (fun s => put_error JNull (put_cart_isLoading true s)) >>
  try_finally
    (try_catch
       (api_post "/cart/clear/" JUndefined >>
        set_cart (put_cart JNull))
       (fun error =>
        set_cart (put_error (error_message error "error" "Failed to clear cart")) >>
        throw error))
    (set_cart (put_cart_isLoading false)).

(** ** Observations used in the statements *)

(** Token-refresh calls are the bare axios posts to the refresh endpoint. *)
Definition is_refresh_call (c : NetCall) : bool :=
  match c with
  | ViaAxios u _ => String.eqb u (API_URL +:+ "/users/token/refresh/")
  | ViaApi _ => false
  end.

Definition refresh_calls (log : list NetCall) : nat :=
  length (filter (fun c => is_refresh_call c = true) log).


(** The config that leaves the request interceptor in world [w]. *)
Definition outgoing (w : World) (config : Config) : Config :=
  if truthy (cookie_value (Cookies_get "access_token" w))
  then with_Authorization
         ("Bearer " +:+ js_to_string (cookie_value (Cookies_get "access_token" w)))
         config
  else config.

(** The world after the [catch (refreshError)] block. *)
Definition purged (w : World) : World :=
  match window w with
  | Some _ =>
      location_assign "/login"
        (localStorage_removeItem "auth-storage"
           (Cookies_remove "refresh_token" (Cookies_remove "access_token" w)))
  | None => Cookies_remove "refresh_token" (Cookies_remove "access_token" w)
  end.

(** The guard of the response interceptor:
    [error.response?.status === 401 && !originalRequest._retry]. *)
Definition recoverable_401 (error : JSError) : bool :=
  match error with
  | AxiosError config _ => status_is_401 error && negb (_retry config)
  | _ => false
  end.

(** The error object after [originalRequest._retry = true]. *)
Definition marked_retried (error : JSError) : JSError :=
  match error with
  | AxiosError config response => AxiosError (with_retry true config) response
  | _ => error
  end.

(** The world after [set({ isLoading: true, error: null })] of the cart
    store, and after its [set({ isLoading: false })]. *)
Definition cart_loading (w : World) : World :=
  persist "cart-storage" cart_partialize
    (with_cartStore (put_error JNull (put_cart_isLoading true (cartStore w))) w).

Definition cart_loaded (w : World) : World :=
  persist "cart-storage" cart_partialize
    (with_cartStore (put_cart_isLoading false (cartStore w)) w).

(** The world after [set({ isLoading: b })] of the auth store. *)
Definition auth_loading (b : bool) (w : World) : World :=
  persist "auth-storage" auth_partialize
    (with_authStore (put_auth_isLoading b (authStore w)) w).

(** What the refresh flow can do. *)
Inductive refresh_outcome (backend : Backend) (originalRequest : Config) (w : World)
  : World → Result Config → Prop :=
| refresh_no_token :
    truthy (cookie_value (Cookies_get "refresh_token" w)) = false →
    refresh_outcome backend originalRequest w w (Rejected (Error "No refresh token"))
| refresh_rejected token e :
    Cookies_get "refresh_token" w = Some token →
    truthy (JStr token) = true →
    settle_reply (refresh_config token)
                 (backend (net_log w) (refresh_call token)) = Rejected e →
    refresh_outcome backend originalRequest w (sent (refresh_call token) w) (Rejected e)
| refresh_bad_payload token response e :
    Cookies_get "refresh_token" w = Some token →
    truthy (JStr token) = true →
    settle_reply (refresh_config token)
                 (backend (net_log w) (refresh_call token)) = Resolved response →
    get_prop (data response) "access" = Rejected e →
    refresh_outcome backend originalRequest w (sent (refresh_call token) w) (Rejected e)
| refresh_ok token response access :
    Cookies_get "refresh_token" w = Some token →
    truthy (JStr token) = true →
    settle_reply (refresh_config token)
                 (backend (net_log w) (refresh_call token)) = Resolved response →
    get_prop (data response) "access" = Resolved access →
    refresh_outcome backend originalRequest w
      (Cookies_set "access_token" (js_to_string access) (sent (refresh_call token) w))
      (Resolved (with_Authorization ("Bearer " +:+ js_to_string access) originalRequest)).

(** What one request through the client can do. *)
Inductive api_outcome (backend : Backend) (config : Config) (w : World)
  : World → Result Response → Prop :=
| api_direct r :
    let config1 := outgoing w config in
    settle_reply config1 (backend (net_log w) (ViaApi config1)) = r →
    match r with Resolved _ => True | Rejected e => recoverable_401 e = false end →
    api_outcome backend config w (sent (ViaApi config1) w) r
| api_refresh_failed error w2 e :
    let config1 := outgoing w config in
    settle_reply config1 (backend (net_log w) (ViaApi config1)) = Rejected error →
    recoverable_401 error = true →
    refresh_outcome backend (with_retry true config1) (sent (ViaApi config1) w) w2 (Rejected e) →
    api_outcome backend config w (purged w2) (Rejected (marked_retried error))
| api_reissued error w2 request :
    let config1 := outgoing w config in
    settle_reply config1 (backend (net_log w) (ViaApi config1)) = Rejected error →
    recoverable_401 error = true →
    refresh_outcome backend (with_retry true config1) (sent (ViaApi config1) w) w2
                    (Resolved request) →
    let config2 := outgoing w2 request in
    api_outcome backend config w (sent (ViaApi config2) w2)
                (settle_reply config2 (backend (net_log w2) (ViaApi config2))).

(** The four cart mutations and the server call each one makes. *)
Inductive CartMutation : Type :=
| AddToCart (productId : Z) (quantity : option Z)
| UpdateQuantity (productId quantity : Z)
| RemoveFromCart (productId : Z)
| ClearCart.

Definition perform (m : CartMutation) : Async unit :=
  match m with
  | AddToCart productId quantity => addToCart productId quantity
  | UpdateQuantity productId quantity => updateQuantity productId quantity
  | RemoveFromCart productId => removeFromCart productId
  | ClearCart => clearCart
  end.

Definition server_call (m : CartMutation) : Async Response :=
  match m with
  | AddToCart productId quantity =>
      api_post "/cart/add/"
               (JObj [("product_id", JNum productId);
                      ("quantity", JNum (default 1 quantity))])
  | UpdateQuantity productId quantity =>
      api_post "/cart/update/"
               (JObj [("product_id", JNum productId); ("quantity", JNum quantity)])
  | RemoveFromCart productId =>
      api_post "/cart/remove/" (JObj [("product_id", JNum productId)])
  | ClearCart => api_post "/cart/clear/" JUndefined
  end.

(** What each mutation does with a fulfilled response. *)
Definition on_fulfilled (m : CartMutation) (response : Response) : Async unit :=
  match m with
  | ClearCart => set_cart (put_cart JNull)
  | _ =>
      let* snapshot := settle (get_prop (data response) "cart") in
      set_cart (put_cart snapshot)
  end.

Definition fallback_message (m : CartMutation) : string :=
  match m with
  | AddToCart _ _ => "Failed to add to cart"
  | UpdateQuantity _ _ => "Failed to update cart"
  | RemoveFromCart _ => "Failed to remove from cart"
  | ClearCart => "Failed to clear cart"
  end.

(** The world after the [catch] block's [set({ error: ... })]. *)
Definition cart_failed (e : JSError) (fallback : string) (w : World) : World :=
  persist "cart-storage" cart_partialize
    (with_cartStore (put_error (error_message e "error" fallback) (cartStore w)) w).

(** The world after a fulfilled, and after a failed, profile fetch. *)
Definition profile_stored (response : Response) (w : World) : World :=
  persist "auth-storage" auth_partialize
    (with_authStore (put_isAuthenticated true (put_user (data response) (authStore w))) w).

Definition profile_cleared (w : World) : World :=
  persist "auth-storage" auth_partialize
    (with_authStore (put_isAuthenticated false (put_user JNull (authStore w))) w).

(** The world after [set({ isAuthenticated: true })]. *)
Definition authenticated (w : World) : World :=
  persist "auth-storage" auth_partialize
    (with_authStore (put_isAuthenticated true (authStore w)) w).

(** The credential call of [login]. *)
Definition credential_call (email password : string) : Async Response :=
  api_post "/users/login/" (JObj [("email", JStr email); ("password", JStr password)]).

(** The continuation a request through the client suspends with. *)
Definition api_continuation (config : Config) : Outcome → World → Step Response :=
  fun o w' =>
    step_catch
      (step_bind (Done w' (settle_reply config o)) response_interceptor_fulfilled)
      (response_interceptor_rejected (api_rec 1)).

Definition api_entry (config : Config)
  : NetCall * (Outcome → World → Step Response) :=
  (ViaApi config, api_continuation config).

(** A schedule of deliveries: each one answers, with a 401, one of the
    [n] requests still waiting for their first reply. *)
Fixpoint simultaneous_401s (n : nat) (schedule : list (nat * Response)) : Prop :=
  match schedule with
  | [] => True
  | (i, r) :: rest =>
      (i < n)%nat ∧ status r = 401 ∧ simultaneous_401s (Nat.pred n) rest
  end.

Definition issue_all (configs : list Config) (l : EventLoop Response)
  : EventLoop Response :=
  foldl (fun l config => spawn (api config) l) l configs.

Definition deliver_all (schedule : list (nat * Response)) (l : EventLoop Response)
  : EventLoop Response :=
  foldl (fun l ir => deliver ir.1 (Reply ir.2) l) l schedule.

(** [n] requests wait for their first reply, [m] refresh calls are in
    flight, nothing has settled. *)
Definition loop_inv (token : string) (base n m : nat) (l : EventLoop Response) : Prop :=
  ∃ cs ks,
    in_flight l = (api_entry <$> cs) ++ ks
    ∧ length cs = n
    ∧ Forall (fun c => _retry c = false) cs
    ∧ ks.*1 = replicate m (refresh_call token)
    ∧ Cookies_get "refresh_token" (loop_world l) = Some token
    ∧ refresh_calls (net_log (loop_world l)) = (base + m)%nat
    ∧ settled l = [].


(** ** Scenario data

    Concrete backends, worlds and requests for the worked examples at the
    end. *)

Definition reply (s : Z) (payload : JSValue) : Outcome := Reply (mkResponse s payload).

Definition fresh_world (b : Browser) : World :=
  mkWorld (Some b) (mkAuthState JNull false false) (mkCartState JNull false JNull) [].

(** A signed-in tab: both token cookies, a persisted auth snapshot, the
    orders page open. *)
Definition signed_in_browser : Browser :=
  mkBrowser
    (<["access_token" := "stale"]> (<["refresh_token" := "r1"]> ∅))
    (<["auth-storage" :=
         JObj [("state", JObj [("user", JObj [("id", JStr "u1")]);
                               ("isAuthenticated", JBool true)]);
               ("version", JNum 0)]]> ∅)
    "/orders".

Definition signed_in : World := fresh_world signed_in_browser.

Definition orders_request : Config := mkConfig GET "/orders/" JUndefined None false.

Definition unauthorized : Response :=
  mkResponse 401 (JObj [("detail", JStr "Given token not valid")]).

(** A backend that answers 401 to every request through the client, yet
    hands out a new access token on every refresh. *)
Definition rejecting_backend : Backend := fun log c =>
  match c with
  | ViaApi _ => Reply unauthorized
  | ViaAxios _ _ => reply 200 (JObj [("access", JStr "fresh")])
  end.

Definition not_found : JSError :=
  AxiosError orders_request
             (Some (mkResponse 404 (JObj [("detail", JStr "Not found.")]))).

(** The cart as the server returns it after product 7 was added. *)
Definition cart_with_product_7 : JSValue :=
  JObj [("id", JNum 3);
        ("items", JArr [JObj [("id", JNum 11);
                              ("product", JObj [("id", JNum 7); ("name", JStr "Lamp")]);
                              ("quantity", JNum 1);
                              ("subtotal", JNum 120)]]);
        ("total_items", JNum 1);
        ("subtotal", JNum 120)].

Definition token_expired : Response :=
  mkResponse 401 (JObj [("detail", JStr "Token is invalid or expired")]).

(** A backend that still serves the cart, answers 401 to everything else
    and rejects the refresh token. *)
Definition expired_backend : Backend := fun log c =>
  match c with
  | ViaApi config =>
      if String.eqb (url config) "/cart/add/"
      then reply 200 (JObj [("cart", cart_with_product_7)])
      else Reply unauthorized
  | ViaAxios _ _ => Reply token_expired
  end.

(** A backend that accepts the credentials and then fails on the profile. *)
Definition profile_down_backend : Backend := fun log c =>
  match c with
  | ViaApi config =>
      if String.eqb (url config) "/users/login/"
      then reply 200 (JObj [("access", JStr "a1"); ("refresh", JStr "r1")])
      else reply 500 (JObj [("detail", JStr "Internal server error")])
  | ViaAxios _ _ => Reply token_expired
  end.

Definition anonymous_browser : Browser := mkBrowser ∅ ∅ "/login".
Definition anonymous : World := fresh_world anonymous_browser.

Definition emptied_cart : JSValue :=
  JObj [("id", JNum 3); ("items", JArr []); ("total_items", JNum 0);
        ("subtotal", JNum 0)].

(** A backend that serves the cart endpoints. *)
Definition shop_backend : Backend := fun log c =>
  match c with
  | ViaApi config =>
      if String.eqb (url config) "/cart/clear/"
      then reply 200 (JObj [("message", JStr "Cart cleared"); ("cart", emptied_cart)])
      else if String.eqb (url config) "/cart/"
      then reply 200 cart_with_product_7
      else reply 200 (JObj [("cart", cart_with_product_7)])
  | ViaAxios _ _ => Reply token_expired
  end.

(** A tab whose cart store already holds product 7. *)
Definition shopping : World :=
  mkWorld (Some signed_in_browser) (mkAuthState JNull false false)
          (mkCartState cart_with_product_7 false JNull) [].

Definition out_of_stock : Response :=
  mkResponse 400 (JObj [("error", JStr "Not enough stock")]).

(** A backend that refuses every cart mutation. *)
Definition refusing_backend : Backend := fun log c =>
  match c with
  | ViaApi _ => Reply out_of_stock
  | ViaAxios _ _ => Reply token_expired
  end.

Definition bad_credentials : Response :=
  mkResponse 400 (JObj [("detail", JStr "Invalid email or password")]).

Definition credential_refusing_backend : Backend := fun log c =>
  match c with
  | ViaApi _ => Reply bad_credentials
  | ViaAxios _ _ => Reply token_expired
  end.

(** Three requests in flight, answered 401 in the order third, first,
    second. *)
Definition three_requests : list Config :=
  [orders_request;
   mkConfig GET "/users/profile/" JUndefined None false;
   mkConfig GET "/cart/" JUndefined None false].

Definition crossed_schedule : list (nat * Response) :=
  [(2%nat, unauthorized); (0%nat, unauthorized); (0%nat, unauthorized)].

(** ** Further observations *)

(** The world after the [finally] block of [logout]. *)
Definition signed_out (w : World) : World :=
  profile_cleared (Cookies_remove "refresh_token" (Cookies_remove "access_token" w)).

(** The server calls of [register], [logout] and [updateProfile]. *)
Definition register_call (registerData : JSValue) : Async Response :=
  api_post "/users/register/" registerData.

Definition logout_call (refreshToken : JSValue) : Async Response :=
  api_post "/users/logout/" (JObj [("refresh", refreshToken)]).

Definition profile_patch (profileData : JSValue) : Async Response :=
  api_patch "/users/profile/" profileData.

(** The world after the last [set] of a fulfilled [register]. *)
Definition registered (user : JSValue) (w : World) : World :=
  persist "auth-storage" auth_partialize
    (with_authStore (put_isAuthenticated true (put_user user (authStore w))) w).

(** The actions of the auth store. *)
Inductive AuthAction : Type :=
| Login (email password : string)
| Register (registerData : JSValue)
| Logout
| FetchProfile
| UpdateProfile (profileData : JSValue)
| SetUser (user : JSValue).

Definition auth_action (a : AuthAction) : Async unit :=
  match a with
  | Login email password => login email password
  | Register registerData => register registerData
  | Logout => logout
  | FetchProfile => fetchProfile
  | UpdateProfile profileData => updateProfile profileData
  | SetUser user => setUser user
  end.


(** [v == null]: the values whose properties cannot be read. *)
Definition nullish (v : JSValue) : Prop := v = JNull ∨ v = JUndefined.



(** The actions of the cart store. *)
Inductive CartAction : Type :=
| FetchCart
| Mutate (m : CartMutation).

Definition cart_action (a : CartAction) : Async unit :=
  match a with
  | FetchCart => fetchCart
  | Mutate m => perform m
  end.

(** The cart, in memory and as persisted, is the same in both worlds. *)
Definition same_cart (w w' : World) : Prop :=
  cartStore w' = cartStore w
  ∧ localStorage_getItem "cart-storage" w' = localStorage_getItem "cart-storage" w.

(** The world after the [catch] block of [fetchCart]. *)
Definition cart_fetch_failed (e : JSError) (w : World) : World :=
  persist "cart-storage" cart_partialize
    (with_cartStore
       (put_error (error_message e "message" "Failed to fetch cart") (cartStore w)) w).

(** The world after [set({ cart: snapshot })]. *)
Definition cart_stored (snapshot : JSValue) (w : World) : World :=
  persist "cart-storage" cart_partialize
    (with_cartStore (put_cart snapshot (cartStore w)) w).

(** The request a cart mutation hands to the client. *)
Definition mutation_config (m : CartMutation) : Config :=
  match m with
  | AddToCart productId quantity =>
      mkConfig POST "/cart/add/"
               (JObj [("product_id", JNum productId);
                      ("quantity", JNum (default 1 quantity))]) None false
  | UpdateQuantity productId quantity =>
      mkConfig POST "/cart/update/"
               (JObj [("product_id", JNum productId); ("quantity", JNum quantity)])
               None false
  | RemoveFromCart productId =>
      mkConfig POST "/cart/remove/" (JObj [("product_id", JNum productId)]) None false
  | ClearCart => mkConfig POST "/cart/clear/" JUndefined None false
  end.

(** The continuation a cart mutation suspends with while its request is in
    flight. *)
Definition mutation_continuation (m : CartMutation) (config : Config)
  : Outcome → World → Step unit :=
  fun o w' =>
    step_finally
      (step_catch
         (step_bind (api_continuation config o w') (on_fulfilled m))
         (fun error =>
            set_cart (put_error (error_message error "error" (fallback_message m))) >>
            throw error))
      (set_cart (put_cart_isLoading false)).

(** The cart a fulfilled response of mutation [m] leaves in the store. *)
Definition landed (m : CartMutation) (response : Response) : Result JSValue :=
  match m with
  | ClearCart => Resolved JNull
  | _ => get_prop (data response) "cart"
  end.

(** Two mutations issued one after the other, both in flight. *)
Definition two_in_flight (m1 m2 : CartMutation) (w : World) : EventLoop unit :=
  spawn (perform m2) (spawn (perform m1) (mkLoop w [] [])).

(** ** Pages

    The page handlers that call the stores.  A handler's view state (React
    state, toasts shown by react-hot-toast, routes pushed on the Next
    router) is passed in and returned; none of these calls can throw, so a
    [finally] block that only updates view state is the step after the
    [try]/[catch]. *)

Inductive Toast : Type :=
| ToastSuccess (message : JSValue)
| ToastError (message : JSValue).

(** A form page: [isSubmitting], the toasts shown, the routes pushed. *)
Record FormUI : Type := mkFormUI {
  isSubmitting : bool;
  toasts : list Toast;
  pushed : list string
}.

Definition setIsSubmitting (b : bool) (ui : FormUI) : FormUI :=
  mkFormUI b (toasts ui) (pushed ui).

Definition form_toast (t : Toast) (ui : FormUI) : FormUI :=
  mkFormUI (isSubmitting ui) (toasts ui ++ [t]) (pushed ui).

Definition router_push (route : string) (ui : FormUI) : FormUI :=
  mkFormUI (isSubmitting ui) (toasts ui) (pushed ui ++ [route]).

(** app/login/page.tsx, [onSubmit]. *)
Definition login_onSubmit (email password : string) (ui : FormUI) : Async FormUI :=
  let ui := setIsSubmitting true ui in
  let* ui :=
    try_catch
      (login email password >>
       ret (router_push "/" (form_toast (ToastSuccess (JStr "Welcome back.")) ui)))
      (fun error =>
       ret (form_toast
              (ToastError (js_or (opt_prop (error_data error) "detail")
                                 (JStr "Login failed"))) ui)) in
  ret (setIsSubmitting false ui).

(** The cart page's [handleUpdateQuantity] and [handleRemove], and the
    products page's [handleAddToCart]; their view state is the toasts. *)
Definition handleUpdateQuantity (productId newQuantity : Z) (shown : list Toast)
  : Async (list Toast) :=
  try_catch
    (updateQuantity productId newQuantity >> ret shown)
    (fun error =>
     ret (shown ++ [ToastError (js_or (opt_prop (error_data error) "error")
                                      (JStr "Failed to update"))])).

Definition handleRemove (productId : Z) (shown : list Toast) : Async (list Toast) :=
  try_catch
    (removeFromCart productId >> ret (shown ++ [ToastSuccess (JStr "Removed")]))
    (fun error => ret (shown ++ [ToastError (JStr "Failed to remove")])).

Definition handleAddToCart (productId : Z) (shown : list Toast) : Async (list Toast) :=
  try_catch
    (addToCart productId (Some 1) >>
     ret (shown ++ [ToastSuccess (JStr "Added to cart")]))
    (fun error =>
     ret (shown ++ [ToastError (js_or (opt_prop (error_data error) "error")
                                      (JStr "Failed to add to cart"))])).

(** The three cart handlers and the mutation each one performs. *)
Inductive CartHandler : Type :=
| HandleUpdateQuantity (productId newQuantity : Z)
| HandleRemove (productId : Z)
| HandleAddToCart (productId : Z).

Definition handle (h : CartHandler) : list Toast → Async (list Toast) :=
  match h with
  | HandleUpdateQuantity productId newQuantity =>
      handleUpdateQuantity productId newQuantity
  | HandleRemove productId => handleRemove productId
  | HandleAddToCart productId => handleAddToCart productId
  end.

Definition handled_mutation (h : CartHandler) : CartMutation :=
  match h with
  | HandleUpdateQuantity productId newQuantity => UpdateQuantity productId newQuantity
  | HandleRemove productId => RemoveFromCart productId
  | HandleAddToCart productId => AddToCart productId (Some 1)
  end.

(** The orders page: the orders shown, [isLoading], toasts, routes pushed
    and what was written to the console. *)
Record OrdersUI : Type := mkOrdersUI {
  orders : JSValue;
  orders_isLoading : bool;
  orders_toasts : list Toast;
  orders_pushed : list string;
  console_errors : list (string * JSError)
}.

(** app/orders/page.tsx, [fetchOrders]. *)
Definition fetchOrders (ui : OrdersUI) : Async OrdersUI :=
  let* ui :=
    try_catch
      (let* response := api_get "/orders/" in
       let* results := settle (get_prop (data response) "results") in
       ret (mkOrdersUI (js_or results (data response)) (orders_isLoading ui)
                       (orders_toasts ui) (orders_pushed ui) (console_errors ui)))
      (fun error =>
       ret (mkOrdersUI (orders ui) (orders_isLoading ui)
                       (orders_toasts ui ++ [ToastError (JStr "Unable to load orders")])
                       (orders_pushed ui)
                       (console_errors ui ++ [("Failed to fetch orders:", error)]))) in
  ret (mkOrdersUI (orders ui) false (orders_toasts ui) (orders_pushed ui)
                  (console_errors ui)).

(** app/orders/page.tsx, the effect on [isAuthenticated]. *)
Definition orders_effect (ui : OrdersUI) : Async OrdersUI :=
  let* authenticated := gets (fun w => isAuthenticated (authStore w)) in
  if negb authenticated then
    ret (mkOrdersUI (orders ui) (orders_isLoading ui) (orders_toasts ui)
                    (orders_pushed ui ++ ["/login?redirect=/orders"])
                    (console_errors ui))
  else fetchOrders ui.

(** ** Further scenario data *)

Definition orders_payload : Response :=
  mkResponse 200 (JObj [("results", JArr [JObj [("order_number", JStr "OW-1")]])]).

(** A backend that rejects the stale access token, accepts the fresh one
    and hands the fresh one out on refresh. *)
Definition rotating_backend : Backend := fun log c =>
  match c with
  | ViaApi config =>
      match Authorization config with
      | Some header =>
          if String.eqb header "Bearer fresh" then Reply orders_payload
          else Reply unauthorized
      | None => Reply unauthorized
      end
  | ViaAxios _ _ => reply 200 (JObj [("access", JStr "fresh")])
  end.

(** Backends whose refresh endpoint answers 200 with no payload, and with
    the token under another name. *)
Definition hollow_refresh_backend : Backend := fun log c =>
  match c with
  | ViaApi _ => Reply unauthorized
  | ViaAxios _ _ => reply 200 JNull
  end.

Definition misnamed_refresh_backend : Backend := fun log c =>
  match c with
  | ViaApi _ => Reply unauthorized
  | ViaAxios _ _ => reply 200 (JObj [("token", JStr "fresh")])
  end.

Definition new_user : JSValue :=
  JObj [("id", JStr "u2"); ("email", JStr "bob@example.org")].

Definition registration : JSValue :=
  JObj [("email", JStr "bob@example.org"); ("username", JStr "bob");
        ("password", JStr "secret"); ("password2", JStr "secret")].

(** A backend that registers anyone, and one that forgets the tokens. *)
Definition registering_backend : Backend := fun log c =>
  match c with
  | ViaApi _ =>
      reply 201 (JObj [("tokens", JObj [("access", JStr "a2"); ("refresh", JStr "r2")]);
                       ("user", new_user)])
  | ViaAxios _ _ => Reply token_expired
  end.

Definition tokenless_backend : Backend := fun log c =>
  match c with
  | ViaApi _ => reply 201 (JObj [("user", new_user)])
  | ViaAxios _ _ => Reply token_expired
  end.

Definition ann_profile : JSValue :=
  JObj [("id", JStr "u1"); ("email", JStr "ann@example.org")].

(** A backend that accepts the credentials and serves the profile. *)
Definition welcoming_backend : Backend := fun log c =>
  match c with
  | ViaApi config =>
      if String.eqb (url config) "/users/login/"
      then reply 200 (JObj [("access", JStr "a1"); ("refresh", JStr "r1")])
      else reply 200 ann_profile
  | ViaAxios _ _ => Reply token_expired
  end.

Definition login_form : FormUI := mkFormUI false [] [].

Definition cart_after_update : Response :=
  mkResponse 200 (JObj [("cart", cart_with_product_7)]).

Definition cart_after_remove : Response :=
  mkResponse 200 (JObj [("cart", emptied_cart)]).

(** ** Running composite computations *)

Section Run.

Variable backend : Backend.

Lemma run_bind {A B} (s : Step A) (f : A → Async B) :
  run backend (step_bind s f) =
  match run backend s with
  | Some (w, Resolved a) => run backend (f a w)
  | Some (w, Rejected e) => Some (w, Rejected e)
  | None => None
  end.
Proof.
  induction s as [w [a|e] | w c k IH | ]; simpl; try reflexivity.
  apply IH.
Qed.

Lemma run_catch {A} (s : Step A) (h : JSError → Async A) :
  run backend (step_catch s h) =
  match run backend s with
  | Some (w, Resolved a) => Some (w, Resolved a)
  | Some (w, Rejected e) => run backend (h e w)
  | None => None
  end.
Proof.
  induction s as [w [a|e] | w c k IH | ]; simpl; try reflexivity.
  apply IH.
Qed.

Lemma run_finally {A} (s : Step A) (fin : Async unit) :
  run backend (step_finally s fin) =
  match run backend s with
  | Some (w, r) =>
      match run backend (fin w) with
      | Some (w', Resolved _) => Some (w', r)
      | Some (w', Rejected e) => Some (w', Rejected e)
      | None => None
      end
  | None => None
  end.
Proof.
  induction s as [w r | w c k IH | ]; simpl; try reflexivity.
  - rewrite run_bind. destruct (run backend (fin w)) as [[w' [u|e]]|]; reflexivity.
  - apply IH.
Qed.

Lemma request_interceptor_eq config w :
  request_interceptor config w = Done w (Resolved (outgoing w config)).
Proof.
  unfold request_interceptor, outgoing, bind, gets. simpl.
  destruct (truthy _); reflexivity.
Qed.

Lemma on_refresh_failure_eq w :
  on_refresh_failure w = Done (purged w) (Resolved tt).
Proof.
  unfold on_refresh_failure, purged, bind, gets, modify. simpl.
  destruct w as [[b|] a c l]; reflexivity.
Qed.

Lemma run_api_rec fuel config w :
  run backend (api_rec (S fuel) config w) =
  let config' := outgoing w config in
  let w1 := sent (ViaApi config') w in
  match settle_reply config' (backend (net_log w) (ViaApi config')) with
  | Resolved response => Some (w1, Resolved response)
  | Rejected error =>
      run backend (response_interceptor_rejected (api_rec fuel) error w1)
  end.
Proof.
  simpl. unfold bind at 1. rewrite request_interceptor_eq. simpl.
  unfold bind, await_call. simpl.
  destruct (settle_reply _ _); reflexivity.
Qed.

Lemma run_refresh_flow originalRequest w :
  run backend (refresh_flow originalRequest w) =
  let refreshToken := cookie_value (Cookies_get "refresh_token" w) in
  if truthy refreshToken then
    let token := js_to_string refreshToken in
    let w1 := sent (refresh_call token) w in
    match settle_reply (refresh_config token)
                       (backend (net_log w) (refresh_call token)) with
    | Resolved response =>
        match get_prop (data response) "access" with
        | Resolved access =>
            Some (Cookies_set "access_token" (js_to_string access) w1,
                  Resolved (with_Authorization ("Bearer " +:+ js_to_string access)
                                               originalRequest))
        | Rejected e => Some (w1, Rejected e)
        end
    | Rejected e => Some (w1, Rejected e)
    end
  else Some (w, Rejected (Error "No refresh token")).
Proof.
  unfold refresh_flow, bind, gets. simpl.
  destruct (truthy _); [|reflexivity]. simpl.
  destruct (settle_reply _ _) as [response|e]; [|reflexivity]. simpl.
  unfold settle. destruct (get_prop _ _); reflexivity.
Qed.

Lemma run_response_interceptor_rejected api_ error w :
  run backend (response_interceptor_rejected api_ error w) =
  match error with
  | AxiosError config response =>
      if recoverable_401 error then
        match run backend (refresh_flow (with_retry true config) w) with
        | Some (w2, Resolved request) => run backend (api_ request w2)
        | Some (w2, Rejected _) => Some (purged w2, Rejected (marked_retried error))
        | None => None
        end
      else Some (w, Rejected error)
  | _ => Some (w, Rejected error)
  end.
Proof.
  destruct error as [config response| |]; try reflexivity.
  unfold response_interceptor_rejected, recoverable_401.
  destruct (status_is_401 _ && _); [|reflexivity].
  unfold bind at 1. rewrite run_bind.
  unfold try_catch. rewrite run_catch.
  unfold bind at 1. rewrite run_bind.
  destruct (run backend (refresh_flow _ _)) as [[w2 [request|e]]|]; try reflexivity.
  unfold bind. rewrite on_refresh_failure_eq. reflexivity.
Qed.

End Run.

(** ** Frame properties of the browser primitives *)

Ltac frame :=
  intros;
  repeat match goal with w : World |- _ => destruct w as [[?|] ? ? ?] end;
  reflexivity.

Lemma authStore_sent c w : authStore (sent c w) = authStore w.
Proof. reflexivity. Qed.
Lemma cartStore_sent c w : cartStore (sent c w) = cartStore w.
Proof. reflexivity. Qed.
Lemma window_sent c w : window (sent c w) = window w.
Proof. reflexivity. Qed.
Lemma net_log_sent c w : net_log (sent c w) = c :: net_log w.
Proof. reflexivity. Qed.
Lemma Cookies_get_sent n c w : Cookies_get n (sent c w) = Cookies_get n w.
Proof. reflexivity. Qed.

Lemma authStore_Cookies_set n v w : authStore (Cookies_set n v w) = authStore w.
Proof. frame. Qed.
Lemma cartStore_Cookies_set n v w : cartStore (Cookies_set n v w) = cartStore w.
Proof. frame. Qed.
Lemma net_log_Cookies_set n v w : net_log (Cookies_set n v w) = net_log w.
Proof. frame. Qed.

Lemma authStore_purged w : authStore (purged w) = authStore w.
Proof. frame. Qed.
Lemma cartStore_purged w : cartStore (purged w) = cartStore w.
Proof. frame. Qed.
Lemma net_log_purged w : net_log (purged w) = net_log w.
Proof. frame. Qed.

Create Rewrite HintDb frame_db.
#[local] Hint Rewrite authStore_sent cartStore_sent window_sent net_log_sent
  Cookies_get_sent authStore_Cookies_set cartStore_Cookies_set
  net_log_Cookies_set authStore_purged cartStore_purged net_log_purged : frame_db.

Lemma retry_outgoing w config : _retry (outgoing w config) = _retry config.
Proof. unfold outgoing. destruct (truthy _); reflexivity. Qed.

Lemma settle_reply_rejected config o e :
  settle_reply config o = Rejected e → ∃ response, e = AxiosError config response.
Proof.
  destruct o as [r|]; simpl.
  - destruct (validateStatus _); [discriminate|]. intros [= <-]. eauto.
  - intros [= <-]. eauto.
Qed.

Section Client_facts.

Variable backend : Backend.

(** A request already marked [_retry] goes over the network once and its
    outcome is final. *)
Lemma run_api_rec_retried fuel config w :
  _retry config = true →
  run backend (api_rec (S fuel) config w) =
  Some (sent (ViaApi (outgoing w config)) w,
        settle_reply (outgoing w config)
                     (backend (net_log w) (ViaApi (outgoing w config)))).
Proof.
  intros Hretry. rewrite run_api_rec. cbv zeta.
  destruct (settle_reply _ _) as [response|e] eqn:Hsettle; [reflexivity|].
  destruct (settle_reply_rejected _ _ _ Hsettle) as [response ->].
  rewrite run_response_interceptor_rejected.
  unfold recoverable_401. rewrite retry_outgoing, Hretry, andb_false_r.
  reflexivity.
Qed.

Lemma refresh_flow_outcome originalRequest w :
  ∃ w' r, run backend (refresh_flow originalRequest w) = Some (w', r)
          ∧ refresh_outcome backend originalRequest w w' r.
Proof.
  rewrite run_refresh_flow. cbv zeta.
  destruct (truthy _) eqn:Htoken; [|eauto using refresh_no_token].
  destruct (Cookies_get "refresh_token" w) as [token|] eqn:Hget; [|discriminate].
  simpl in Htoken |- *.
  destruct (settle_reply _ _) as [response|e] eqn:Hsettle;
    [|eauto using refresh_rejected].
  destruct (get_prop _ _) as [access|e] eqn:Haccess;
    eauto using refresh_bad_payload, refresh_ok.
Qed.

Lemma refresh_outcome_retry originalRequest w w' request :
  refresh_outcome backend originalRequest w w' (Resolved request) →
  _retry request = _retry originalRequest.
Proof. inversion 1; reflexivity. Qed.

(** The client always settles, and depth two is enough. *)
Lemma api_rec_enough n config w :
  ∃ w' r, run backend (api_rec (2 + n) config w) = Some (w', r)
          ∧ api_outcome backend config w w' r.
Proof.
  change (2 + n)%nat with (S (S n)). rewrite run_api_rec. cbv zeta.
  destruct (settle_reply _ _) as [response|error] eqn:Hsettle.
  { eexists _, _. split; [reflexivity|]. by apply api_direct. }
  destruct (settle_reply_rejected _ _ _ Hsettle) as [response ->].
  rewrite run_response_interceptor_rejected.
  destruct (recoverable_401 _) eqn:Hrec.
  2:{ eexists _, _. split; [reflexivity|]. by apply api_direct. }
  destruct (refresh_flow_outcome (with_retry true (outgoing w config))
              (sent (ViaApi (outgoing w config)) w)) as (w2 & r & -> & Hout).
  destruct r as [request|e].
  - rewrite run_api_rec_retried
      by (by rewrite (refresh_outcome_retry _ _ _ _ Hout)).
    eexists _, _. split; [reflexivity|]. by eapply api_reissued.
  - eexists _, _. split; [reflexivity|]. by eapply api_refresh_failed.
Qed.

Lemma api_settles config w :
  ∃ w' r, run backend (api config w) = Some (w', r) ∧ api_outcome backend config w w' r.
Proof. apply (api_rec_enough 0). Qed.

Lemma refresh_outcome_stores originalRequest w w' r :
  refresh_outcome backend originalRequest w w' r →
  authStore w' = authStore w ∧ cartStore w' = cartStore w.
Proof. inversion 1; subst; autorewrite with frame_db; auto. Qed.

Lemma api_outcome_stores config w w' r :
  api_outcome backend config w w' r →
  authStore w' = authStore w ∧ cartStore w' = cartStore w.
Proof.
  inversion 1 as [? ? ?|? ? ? ? ? ? Hout|? ? ? ? ? ? Hout ?]; subst;
    autorewrite with frame_db; auto;
    apply refresh_outcome_stores in Hout; autorewrite with frame_db in Hout; auto.
Qed.

(** The client never touches the stores. *)
Lemma api_keeps_stores config w w' r :
  run backend (api config w) = Some (w', r) →
  authStore w' = authStore w ∧ cartStore w' = cartStore w.
Proof.
  destruct (api_settles config w) as (w1 & r1 & -> & Hout).
  intros [= <- <-]. eauto using api_outcome_stores.
Qed.

End Client_facts.

(** ** Counting refresh calls *)

Lemma refresh_calls_api config log :
  refresh_calls (ViaApi config :: log) = refresh_calls log.
Proof. reflexivity. Qed.

Lemma refresh_calls_refresh token log :
  refresh_calls (refresh_call token :: log) = S (refresh_calls log).
Proof.
  unfold refresh_calls, refresh_call.
  rewrite filter_cons_True; [reflexivity|].
  simpl. apply String.eqb_refl.
Qed.

#[local] Hint Rewrite refresh_calls_api refresh_calls_refresh : frame_db.


Section Client_claims.

Variable backend : Backend.




End Client_claims.

(** ** What the purge leaves behind *)

Lemma Cookies_get_purged name w :
  name = "access_token" ∨ name = "refresh_token" →
  Cookies_get name (purged w) = None.
Proof.
  destruct w as [[b|] a c l]; [|reflexivity].
  unfold purged, Cookies_get; simpl.
  intros [-> | ->].
  - rewrite lookup_delete_ne by done. apply lookup_delete_eq.
  - apply lookup_delete_eq.
Qed.

Lemma localStorage_getItem_purged key w :
  localStorage_getItem key (purged w) =
  if decide (key = "auth-storage") then None else localStorage_getItem key w.
Proof.
  destruct w as [[b|] a c l]; unfold purged, localStorage_getItem; simpl.
  - case_decide as Hkey.
    + subst. apply lookup_delete_eq.
    + by rewrite lookup_delete_ne.
  - by case_decide.
Qed.

Lemma location_href_purged w :
  location_href (purged w) = (λ _, "/login") <$> window w.
Proof. destruct w as [[b|] a c l]; reflexivity. Qed.

Lemma Cookies_get_set_ne name name' v w :
  name ≠ name' → Cookies_get name (Cookies_set name' v w) = Cookies_get name w.
Proof.
  intros Hne. destruct w as [[b|] a c l]; [|reflexivity].
  unfold Cookies_get; simpl. by rewrite lookup_insert_ne.
Qed.

Lemma localStorage_getItem_Cookies_set key name v w :
  localStorage_getItem key (Cookies_set name v w) = localStorage_getItem key w.
Proof. frame. Qed.

Lemma location_href_Cookies_set name v w :
  location_href (Cookies_set name v w) = location_href w.
Proof. frame. Qed.

Lemma settle_reply_401 config r :
  status r = 401 →
  settle_reply config (Reply r) = Rejected (AxiosError config (Some r)).
Proof. intros Hs. unfold settle_reply. by rewrite Hs. Qed.

Lemma localStorage_getItem_sent key c w :
  localStorage_getItem key (sent c w) = localStorage_getItem key w.
Proof. reflexivity. Qed.

Lemma location_href_sent c w : location_href (sent c w) = location_href w.
Proof. reflexivity. Qed.

#[local] Hint Rewrite localStorage_getItem_sent location_href_sent
  localStorage_getItem_Cookies_set location_href_Cookies_set : frame_db.

Section Interceptor_claims.

Variable backend : Backend.

(** C7: a response error that is not a recoverable 401 (any status other
    than 401, no response at all, or a 401 on a request already marked
    [_retry]) leaves the response interceptor as a rejection with the very
    same error object, in the same world, without suspending: nothing is
    sent, nothing is transformed. *)
Theorem unrecoverable_error_propagates
    (api_ : Config → Async Response) (error : JSError) (w : World) :
  (error_status error ≠ Some 401
   ∨ ∃ config response, error = AxiosError config response ∧ _retry config = true) →
  response_interceptor_rejected api_ error w = Done w (Rejected error).
Proof.
  intros Hcase. destruct error as [config response| |]; try reflexivity.
  unfold response_interceptor_rejected.
  replace (status_is_401 (AxiosError config response) && negb (_retry config))
    with false; [reflexivity|].
  symmetry. apply andb_false_iff.
  destruct Hcase as [Hstatus | (config' & response' & [= -> ->] & ->)].
  - left. unfold status_is_401.
    destruct (error_status _) as [s|]; [|reflexivity].
    apply Z.eqb_neq. congruence.
  - by right.
Qed.

(** C2 (as amended): when the refresh flow fails, because the refresh token
    is missing from the cookies or because the refresh call is rejected,
    the interceptor rejects with the original error (now marked [_retry]),
    both token cookies are gone, the persisted auth snapshot
    ['auth-storage'] is gone and the location is ['/login'] (when there is
    a window); every other localStorage key, the persisted cart snapshot
    ['cart-storage'] among them, and both in-memory stores are as they
    were.  The next request leaves the request interceptor without a
    bearer token. *)
Theorem refresh_failure_purges_session
    (api_ : Config → Async Response) (config : Config)
    (response : option Response) (w : World) :
  recoverable_401 (AxiosError config response) = true →
  (truthy (cookie_value (Cookies_get "refresh_token" w)) = false
   ∨ ∃ token e,
       Cookies_get "refresh_token" w = Some token
       ∧ settle_reply (refresh_config token)
                      (backend (net_log w) (refresh_call token)) = Rejected e) →
  ∃ w',
    run backend (response_interceptor_rejected api_ (AxiosError config response) w)
    = Some (w', Rejected (AxiosError (with_retry true config) response))
    ∧ Cookies_get "access_token" w' = None
    ∧ Cookies_get "refresh_token" w' = None
    ∧ localStorage_getItem "auth-storage" w' = None
    ∧ location_href w' = (λ _, "/login") <$> window w
    ∧ localStorage_getItem "cart-storage" w' = localStorage_getItem "cart-storage" w
    ∧ (∀ key, key ≠ "auth-storage" →
         localStorage_getItem key w' = localStorage_getItem key w)
    ∧ authStore w' = authStore w
    ∧ cartStore w' = cartStore w
    ∧ (∀ next, outgoing w' next = next).
Proof.
  intros Hrec Hfail.
  rewrite run_response_interceptor_rejected, Hrec.
  assert (∃ w2 e, run backend (refresh_flow (with_retry true config) w)
                  = Some (w2, Rejected e)
                  ∧ (w2 = w ∨ ∃ c, w2 = sent c w)) as (w2 & e & -> & Hw2).
  { rewrite run_refresh_flow. cbv zeta.
    destruct (truthy _) eqn:Htoken; [|by eauto].
    destruct Hfail as [?|(token & e & Hget & Hsettle)]; [congruence|].
    rewrite Hget. simpl. rewrite Hsettle. eauto 6. }
  exists (purged w2). split; [reflexivity|].
  rewrite !Cookies_get_purged by auto.
  rewrite location_href_purged.
  assert (Hls : ∀ key, key ≠ "auth-storage" →
            localStorage_getItem key (purged w2) = localStorage_getItem key w).
  { intros key Hkey. rewrite localStorage_getItem_purged.
    case_decide; [done|]. by destruct Hw2 as [-> | [c ->]]. }
  repeat split; auto.
  - rewrite localStorage_getItem_purged. by case_decide.
  - by destruct Hw2 as [-> | [c ->]].
  - rewrite authStore_purged. by destruct Hw2 as [-> | [c ->]].
  - rewrite cartStore_purged. by destruct Hw2 as [-> | [c ->]].
  - unfold outgoing. by rewrite Cookies_get_purged by auto.
Qed.


End Interceptor_claims.

(** ** The stores *)

(** All four mutations are the same frame around their own call. *)
Lemma perform_shape m :
  perform m =
  (set_cart (fun s => put_error JNull (put_cart_isLoading true s)) >>
   try_finally
     (try_catch
        (let* response := server_call m in on_fulfilled m response)
        (fun error =>
         set_cart (put_error (error_message error "error" (fallback_message m))) >>
         throw error))
     (set_cart (put_cart_isLoading false))).
Proof. destruct m; reflexivity. Qed.

Lemma cart_cart_loading w : cart (cartStore (cart_loading w)) = cart (cartStore w).
Proof. frame. Qed.
Lemma cart_cart_loaded w : cart (cartStore (cart_loaded w)) = cart (cartStore w).
Proof. frame. Qed.
Lemma cart_cart_failed e fallback w :
  cart (cartStore (cart_failed e fallback w)) = cart (cartStore w).
Proof. frame. Qed.

Section Store_claims.

Variable backend : Backend.

Lemma run_perform m w :
  run backend (perform m w) =
  match run backend (server_call m (cart_loading w)) with
  | Some (w1, Resolved response) =>
      match run backend (on_fulfilled m response w1) with
      | Some (w2, Resolved u) => Some (cart_loaded w2, Resolved u)
      | Some (w2, Rejected e) =>
          Some (cart_loaded (cart_failed e (fallback_message m) w2), Rejected e)
      | None => None
      end
  | Some (w1, Rejected e) =>
      Some (cart_loaded (cart_failed e (fallback_message m) w1), Rejected e)
  | None => None
  end.
Proof.
  rewrite perform_shape.
  unfold bind at 1. unfold set_cart at 1, modify. simpl step_bind.
  fold (cart_loading w).
  unfold try_finally. rewrite run_finally.
  unfold try_catch. rewrite run_catch.
  unfold bind at 1. rewrite run_bind.
  destruct (run backend (server_call m (cart_loading w))) as [[w1 [response|e]]|];
    [|reflexivity|reflexivity].
  destruct (run backend (on_fulfilled m response w1)) as [[w2 [u|e]]|];
    reflexivity.
Qed.

Lemma run_on_fulfilled m response w :
  run backend (on_fulfilled m response w) =
  match m with
  | ClearCart =>
      Some (persist "cart-storage" cart_partialize
              (with_cartStore (put_cart JNull (cartStore w)) w), Resolved tt)
  | _ =>
      match get_prop (data response) "cart" with
      | Resolved snapshot =>
          Some (persist "cart-storage" cart_partialize
                  (with_cartStore (put_cart snapshot (cartStore w)) w), Resolved tt)
      | Rejected e => Some (w, Rejected e)
      end
  end.
Proof.
  destruct m; try reflexivity;
    unfold on_fulfilled, bind, settle; simpl;
    destruct (get_prop _ _); reflexivity.
Qed.

Lemma server_call_keeps_cart m w w1 r :
  run backend (server_call m w) = Some (w1, r) → cartStore w1 = cartStore w.
Proof.
  destruct m; unfold server_call, api_post; intros Hrun;
    by apply api_keeps_stores in Hrun as [_ ?].
Qed.

(** However a cart mutation comes to reject, the store's cart is what it
    was. *)
Lemma cart_mutation_rejection_keeps_snapshot m w w' e :
  run backend (perform m w) = Some (w', Rejected e) →
  cart (cartStore w') = cart (cartStore w).
Proof.
  rewrite run_perform.
  destruct (run backend (server_call m (cart_loading w)))
    as [[w1 [response|e1]]|] eqn:Hcall; [| |discriminate].
  - rewrite run_on_fulfilled.
    destruct m; try discriminate;
      (destruct (get_prop _ _); [discriminate|]);
      intros [= <- <-];
      rewrite cart_cart_loaded, cart_cart_failed,
        (server_call_keeps_cart _ _ _ _ Hcall);
      apply cart_cart_loading.
  - intros [= <- <-].
    rewrite cart_cart_loaded, cart_cart_failed,
      (server_call_keeps_cart _ _ _ _ Hcall).
    apply cart_cart_loading.
Qed.

(** C5: for each cart mutation ([addToCart], [updateQuantity],
    [removeFromCart], [clearCart]), if its server call is rejected with
    error [e], the mutation itself rejects with that same [e] and the
    store's cart is exactly the snapshot it held before the call. *)
Theorem cart_mutation_failure_keeps_snapshot
    (m : CartMutation) (w w1 : World) (e : JSError) :
  run backend (server_call m (cart_loading w)) = Some (w1, Rejected e) →
  ∃ w', run backend (perform m w) = Some (w', Rejected e)
        ∧ cart (cartStore w') = cart (cartStore w).
Proof.
  intros Hcall.
  assert (Hrun : run backend (perform m w)
                 = Some (cart_loaded (cart_failed e (fallback_message m) w1),
                         Rejected e))
    by (by rewrite run_perform, Hcall).
  eexists. split; [exact Hrun|].
  by apply cart_mutation_rejection_keeps_snapshot in Hrun.
Qed.

(** A fulfilled [fetchCart] call stores the response payload as it is. *)
Lemma fetchCart_stores_payload w w1 response :
  run backend (api_get "/cart/" (cart_loading w)) = Some (w1, Resolved response) →
  ∃ w', run backend (fetchCart w) = Some (w', Resolved tt)
        ∧ cart (cartStore w') = data response.
Proof.
  intros Hcall. unfold fetchCart.
  unfold bind at 1. unfold set_cart at 1, modify. simpl step_bind.
  fold (cart_loading w).
  unfold try_finally. rewrite run_finally.
  unfold try_catch. rewrite run_catch.
  unfold bind at 1. rewrite run_bind, Hcall.
  eexists. split; [reflexivity|]. frame.
Qed.

(** C4 (as amended): when the server call of [addToCart], [updateQuantity]
    or [removeFromCart] is fulfilled, the store's cart becomes the [cart]
    property of the response payload, whole and as it is (when the payload
    is [null] or [undefined] the mutation rejects and the cart stays).  A
    fulfilled [clearCart] sets the cart to [null] whatever the response
    carries.  No field of the cart is computed locally. *)
Theorem cart_is_server_snapshot
    (m : CartMutation) (w w1 : World) (response : Response) :
  run backend (server_call m (cart_loading w)) = Some (w1, Resolved response) →
  ∃ w' r,
    run backend (perform m w) = Some (w', r)
    ∧ match m with
      | ClearCart => r = Resolved tt ∧ cart (cartStore w') = JNull
      | _ =>
          match get_prop (data response) "cart" with
          | Resolved snapshot => r = Resolved tt ∧ cart (cartStore w') = snapshot
          | Rejected e => r = Rejected e ∧ cart (cartStore w') = cart (cartStore w)
          end
      end.
Proof.
  intros Hcall. rewrite run_perform, Hcall, run_on_fulfilled.
  pose proof (server_call_keeps_cart _ _ _ _ Hcall) as Hkeep.
  destruct m;
    try (destruct (get_prop _ _) as [snapshot|e];
         eexists _, _; (split; [reflexivity|]); split; try reflexivity;
         rewrite ?cart_cart_loaded, ?cart_cart_failed, ?Hkeep;
         try apply cart_cart_loading; frame).
  eexists _, _. split; [reflexivity|]. split; [reflexivity|]. frame.
Qed.


End Store_claims.

Lemma authStore_auth_loading b w :
  user (authStore (auth_loading b w)) = user (authStore w)
  ∧ isAuthenticated (authStore (auth_loading b w)) = isAuthenticated (authStore w).
Proof. destruct w as [[?|] ? ? ?]; split; reflexivity. Qed.

Section Auth_claims.

Variable backend : Backend.

Lemma run_fetchProfile w :
  run backend (fetchProfile w) =
  match run backend (api_get "/users/profile/" w) with
  | Some (w1, Resolved response) => Some (profile_stored response w1, Resolved tt)
  | Some (w1, Rejected e) => Some (profile_cleared w1, Resolved tt)
  | None => None
  end.
Proof.
  unfold fetchProfile, try_catch. rewrite run_catch.
  unfold bind at 1. rewrite run_bind.
  destruct (run backend (api_get "/users/profile/" w)) as [[w1 [response|e]]|];
    reflexivity.
Qed.

Lemma fetchProfile_resolves w :
  ∃ w', run backend (fetchProfile w) = Some (w', Resolved tt).
Proof.
  rewrite run_fetchProfile.
  destruct (api_settles backend (mkConfig GET "/users/profile/" JUndefined None false) w)
    as (w1 & r & Hrun & _).
  unfold api_get. rewrite Hrun. destruct r; eauto.
Qed.


Lemma run_login email password w :
  run backend (login email password w) =
  match run backend (credential_call email password (auth_loading true w)) with
  | Some (w1, Resolved response) =>
      match get_prop (data response) "access",
            get_prop (data response) "refresh" with
      | Resolved access, Resolved refresh =>
          match run backend
                  (fetchProfile
                     (Cookies_set "refresh_token" (js_to_string refresh)
                        (Cookies_set "access_token" (js_to_string access) w1))) with
          | Some (w2, Resolved _) =>
              Some (auth_loading false (authenticated w2), Resolved tt)
          | Some (w2, Rejected e) => Some (auth_loading false w2, Rejected e)
          | None => None
          end
      | Rejected e, _ => Some (auth_loading false w1, Rejected e)
      | _, Rejected e => Some (auth_loading false w1, Rejected e)
      end
  | Some (w1, Rejected e) => Some (auth_loading false w1, Rejected e)
  | None => None
  end.
Proof.
  unfold login.
  unfold bind at 1. unfold set_auth at 1, modify. simpl step_bind.
  fold (auth_loading true w).
  unfold try_finally. rewrite run_finally.
  unfold bind at 1. rewrite run_bind.
  fold (credential_call email password).
  destruct (run backend (credential_call email password (auth_loading true w)))
    as [[w1 [response|e]]|]; [|reflexivity|reflexivity].
  unfold bind at 1, settle at 1. simpl step_bind.
  destruct (get_prop (data response) "access") as [access|e]; [|reflexivity].
  unfold bind at 1, settle at 1. simpl step_bind.
  destruct (get_prop (data response) "refresh") as [refresh|e]; [|reflexivity].
  unfold bind at 1. simpl step_bind.
  unfold bind at 1. simpl step_bind.
  unfold bind at 1. rewrite run_bind.
  destruct (run backend (fetchProfile _)) as [[w2 [u|e]]|]; reflexivity.
Qed.

(** However [login] comes to reject, the store's [user] and
    [isAuthenticated] are what they were. *)
Lemma login_rejection_leaves_state email password w w' e :
  run backend (login email password w) = Some (w', Rejected e) →
  user (authStore w') = user (authStore w)
  ∧ isAuthenticated (authStore w') = isAuthenticated (authStore w).
Proof.
  assert (Hkeep : ∀ w1 r,
            run backend (credential_call email password (auth_loading true w))
            = Some (w1, r) →
            user (authStore (auth_loading false w1)) = user (authStore w)
            ∧ isAuthenticated (authStore (auth_loading false w1))
              = isAuthenticated (authStore w)).
  { intros w1 r Hcall. apply api_keeps_stores in Hcall as [Hauth _].
    destruct (authStore_auth_loading false w1) as [-> ->]. rewrite Hauth.
    apply authStore_auth_loading. }
  rewrite run_login.
  destruct (run backend (credential_call email password (auth_loading true w)))
    as [[w1 [response|e1]]|] eqn:Hcall; [| |discriminate].
  - destruct (get_prop (data response) "access") as [access|e2].
    + destruct (get_prop (data response) "refresh") as [refresh|e3].
      * destruct (fetchProfile_resolves
                    (Cookies_set "refresh_token" (js_to_string refresh)
                       (Cookies_set "access_token" (js_to_string access) w1)))
          as (w2 & ->).
        discriminate.
      * intros [= <- <-]. eauto.
    + intros [= <- <-]. eauto.
  - intros [= <- <-]. eauto.
Qed.

(** C6: when the credential call of [login] is rejected with error [e]
    (the backend's error, as the client delivers it), [login] rejects with
    that same [e], and the store's [user] and [isAuthenticated] are what
    they were before the call. *)
Theorem login_failure_leaves_state
    (email password : string) (w w1 : World) (e : JSError) :
  run backend (credential_call email password (auth_loading true w))
  = Some (w1, Rejected e) →
  ∃ w', run backend (login email password w) = Some (w', Rejected e)
        ∧ user (authStore w') = user (authStore w)
        ∧ isAuthenticated (authStore w') = isAuthenticated (authStore w).
Proof.
  intros Hcall.
  assert (Hrun : run backend (login email password w)
                 = Some (auth_loading false w1, Rejected e))
    by (by rewrite run_login, Hcall).
  eexists. split; [exact Hrun|].
  by apply login_rejection_leaves_state in Hrun.
Qed.

(** Whenever [login] resolves, it has set [isAuthenticated] to [true],
    whether or not the profile fetch went through. *)
Lemma login_resolved_authenticated email password w w' :
  run backend (login email password w) = Some (w', Resolved tt) →
  isAuthenticated (authStore w') = true.
Proof.
  rewrite run_login.
  destruct (run backend (credential_call _ _ _)) as [[w1 [response|e1]]|];
    [|discriminate|discriminate].
  destruct (get_prop (data response) "access") as [access|e2]; [|discriminate].
  destruct (get_prop (data response) "refresh") as [refresh|e3]; [|discriminate].
  destruct (run backend (fetchProfile _)) as [[w2 [u|e]]|]; try discriminate.
  intros [= <-]. frame.
Qed.

End Auth_claims.

(** ** Requests in flight at the same time *)

Lemma api_suspends config w :
  api config w = Await w (ViaApi (outgoing w config)) (api_continuation (outgoing w config)).
Proof.
  unfold api, api_rec, bind. rewrite request_interceptor_eq. reflexivity.
Qed.

Lemma outgoing_window w w' config :
  window w = window w' → outgoing w config = outgoing w' config.
Proof. intros Hw. unfold outgoing, Cookies_get. by rewrite Hw. Qed.

Lemma api_continuation_401 config r w token :
  _retry config = false →
  status r = 401 →
  Cookies_get "refresh_token" w = Some token →
  truthy (JStr token) = true →
  ∃ k, api_continuation config (Reply r) w = Await w (refresh_call token) k.
Proof.
  intros Hretry Hstatus Htoken Htruthy.
  unfold api_continuation. rewrite settle_reply_401 by done.
  cbn [step_bind step_catch].
  unfold response_interceptor_rejected, status_is_401.
  change (error_status (AxiosError config (Some r))) with (Some (status r)).
  rewrite Hstatus, Hretry.
  change ((401 =? 401) && negb false) with true. cbv iota.
  unfold bind, try_catch, refresh_flow, bind, gets. cbn [step_bind step_catch].
  rewrite Htoken. cbn [cookie_value js_to_string]. rewrite Htruthy.
  unfold await_call. cbn [step_bind step_catch]. eauto.
Qed.

Section Concurrency.

Variable token : string.
Hypothesis token_truthy : truthy (JStr token) = true.

Lemma spawn_api_inv base n config l :
  _retry config = false →
  loop_inv token base n 0 l →
  loop_inv token base (S n) 0 (spawn (api config) l).
Proof.
  intros Hretry (cs & ks & Hfl & Hlen & Hcs & Hks & Htoken & Hcalls & Hsettled).
  destruct ks; [|discriminate]. rewrite app_nil_r in Hfl.
  unfold spawn. rewrite api_suspends. simpl advance.
  exists (cs ++ [outgoing (loop_world l) config]), [].
  rewrite Hfl, app_nil_r, fmap_app, length_app. simpl.
  repeat split; auto; [lia|].
  apply Forall_app. split; [done|].
  constructor; [|done]. by rewrite retry_outgoing.
Qed.

Lemma issue_all_inv base configs : ∀ l n,
  Forall (fun c => _retry c = false) configs →
  loop_inv token base n 0 l →
  loop_inv token base (n + length configs) 0 (issue_all configs l).
Proof.
  induction configs as [|config configs IH]; intros l n Hall Hinv; simpl.
  - by rewrite Nat.add_0_r.
  - inversion Hall as [|? ? Hretry Hrest]; subst.
    replace (n + S (length configs))%nat with (S n + length configs)%nat by lia.
    apply IH; [done|]. by apply spawn_api_inv.
Qed.

Lemma deliver_401_inv base n m i r l :
  (i < n)%nat →
  status r = 401 →
  loop_inv token base n m l →
  loop_inv token base (Nat.pred n) (S m) (deliver i (Reply r) l).
Proof.
  intros Hi Hstatus (cs & ks & Hfl & Hlen & Hcs & Hks & Htoken & Hcalls & Hsettled).
  destruct (lookup_lt_is_Some_2 cs i) as [c Hc]; [lia|].
  pose proof (take_drop_middle cs i c Hc) as Hsplit.
  assert (Hleni : length (take i cs) = i) by (rewrite length_take; lia).
  assert (Hretry : _retry c = false).
  { eapply (proj1 (Forall_forall _ _) Hcs), list_elem_of_lookup_2, Hc. }
  destruct (api_continuation_401 c r (loop_world l) token Hretry Hstatus Htoken
              token_truthy) as [k Hk].
  assert (Hfl' : in_flight l =
            (api_entry <$> take i cs) ++ api_entry c
              :: ((api_entry <$> drop (S i) cs) ++ ks)).
  { rewrite Hfl. rewrite <- Hsplit at 1.
    by rewrite fmap_app, fmap_cons, <- app_assoc. }
  unfold deliver.
  rewrite Hfl', list_lookup_middle by (by rewrite length_fmap).
  unfold api_entry at 1. cbv iota beta. rewrite Hk. simpl advance.
  replace i with (length (api_entry <$> take i cs)) at 1
    by (by rewrite length_fmap).
  rewrite delete_middle.
  exists (take i cs ++ drop (S i) cs), (ks ++ [(refresh_call token, k)]).
  repeat split.
  - by rewrite fmap_app, <- !app_assoc.
  - rewrite length_app, length_drop, Hleni. lia.
  - rewrite <- Hsplit in Hcs. apply Forall_app in Hcs as [H1 H2].
    apply Forall_app. split; [done|]. by inversion H2.
  - rewrite fmap_app, Hks. simpl.
    change [refresh_call token] with (replicate 1 (refresh_call token)).
    rewrite <- replicate_add. by rewrite Nat.add_1_r.
  - done.
  - simpl. rewrite refresh_calls_refresh, Hcalls. lia.
  - done.
Qed.

Lemma deliver_all_inv base schedule : ∀ l n m,
  simultaneous_401s n schedule →
  loop_inv token base n m l →
  loop_inv token base (n - length schedule) (m + length schedule)
           (deliver_all schedule l).
Proof.
  induction schedule as [|[i r] schedule IH]; intros l n m Hsched Hinv; simpl.
  - by rewrite Nat.sub_0_r, Nat.add_0_r.
  - destruct Hsched as (Hi & Hstatus & Hrest).
    replace (n - S (length schedule))%nat
      with (Nat.pred n - length schedule)%nat by lia.
    replace (m + S (length schedule))%nat
      with (S m + length schedule)%nat by lia.
    apply IH; [done|]. by apply deliver_401_inv.
Qed.

(** C9: [N] requests are issued through the client one after another and
    all are in flight; each is then answered 401, in any order, before any
    refresh reply arrives.  Every one of them has issued its own refresh
    call: [N] refresh calls are in flight, [N] were logged, and no request
    has settled or waits for another's refresh. *)
Theorem concurrent_401s_each_refresh
    (configs : list Config) (schedule : list (nat * Response)) (w : World) :
  Cookies_get "refresh_token" w = Some token →
  Forall (fun c => _retry c = false) configs →
  simultaneous_401s (length configs) schedule →
  length schedule = length configs →
  let l := deliver_all schedule (issue_all configs (mkLoop w [] [])) in
  (in_flight l).*1 = replicate (length configs) (refresh_call token)
  ∧ refresh_calls (net_log (loop_world l))
    = (refresh_calls (net_log w) + length configs)%nat
  ∧ settled l = [].
Proof.
  intros Htoken Hall Hsched Hlen l.
  assert (Hinv0 : loop_inv token (refresh_calls (net_log w)) 0 0 (mkLoop w [] [])).
  { exists [], []. simpl. repeat split; auto. }
  pose proof (issue_all_inv _ configs _ _ Hall Hinv0) as Hinv1.
  pose proof (deliver_all_inv _ schedule _ _ _ Hsched Hinv1) as Hinv2.
  fold l in Hinv2. simpl in Hinv2. rewrite Hlen, Nat.sub_diag in Hinv2.
  destruct Hinv2 as (cs & ks & Hfl & Hcs & _ & Hks & _ & Hcalls & Hsettled).
  destruct cs; [|discriminate]. simpl in Hfl.
  by rewrite Hfl, Hks, Hcalls.
Qed.

End Concurrency.

(** * Further properties of the client and the stores *)

Lemma Cookies_get_set_eq name v w :
  Cookies_get name (Cookies_set name v w) = (λ _, v) <$> window w.
Proof.
  destruct w as [[b|] a c l]; [|reflexivity].
  unfold Cookies_get; simpl. by rewrite lookup_insert_eq.
Qed.

Lemma settle_reply_fulfilled config r :
  validateStatus (status r) = true → settle_reply config (Reply r) = Resolved r.
Proof. intros Hok. unfold settle_reply. by rewrite Hok. Qed.

(** The bearer header of a request leaving the interceptor. *)
Lemma Authorization_outgoing w config :
  Authorization (outgoing w config) =
  match Cookies_get "access_token" w with
  | Some token =>
      if String.eqb token "" then Authorization config
      else Some ("Bearer " +:+ token)
  | None => Authorization config
  end.
Proof.
  unfold outgoing. destruct (Cookies_get "access_token" w) as [token|]; simpl;
    [|reflexivity].
  by destruct (String.eqb token "").
Qed.

Lemma outgoing_fields w config :
  method (outgoing w config) = method config
  ∧ url (outgoing w config) = url config
  ∧ body (outgoing w config) = body config
  ∧ _retry (outgoing w config) = _retry config.
Proof. unfold outgoing. by destruct (truthy _). Qed.

Section Client_extras.

Variable backend : Backend.

(** The run of a request whose first reply is a 401 and whose refresh goes
    through: the request is re-issued once and its outcome is final. *)
Lemma run_api_refreshed config w token r1 rr access :
  _retry config = false →
  backend (net_log w) (ViaApi (outgoing w config)) = Reply r1 →
  status r1 = 401 →
  Cookies_get "refresh_token" w = Some token →
  truthy (JStr token) = true →
  backend (net_log (sent (ViaApi (outgoing w config)) w)) (refresh_call token)
  = Reply rr →
  validateStatus (status rr) = true →
  get_prop (data rr) "access" = Resolved access →
  let w2 := Cookies_set "access_token" (js_to_string access)
              (sent (refresh_call token) (sent (ViaApi (outgoing w config)) w)) in
  let config2 :=
    outgoing w2 (with_Authorization ("Bearer " +:+ js_to_string access)
                                    (with_retry true (outgoing w config))) in
  run backend (api config w)
  = Some (sent (ViaApi config2) w2,
          settle_reply config2 (backend (net_log w2) (ViaApi config2))).
Proof.
  intros Hretry Hr1 Hs1 Htoken Htruthy Hrr Hsrr Haccess w2 config2.
  unfold api. rewrite run_api_rec. cbv zeta. rewrite Hr1.
  rewrite settle_reply_401 by done.
  rewrite run_response_interceptor_rejected.
  unfold recoverable_401, status_is_401.
  change (error_status (AxiosError (outgoing w config) (Some r1)))
    with (Some (status r1)).
  rewrite Hs1, retry_outgoing, Hretry.
  change ((401 =? 401) && negb false) with true. cbv iota.
  rewrite run_refresh_flow. cbv zeta.
  rewrite Cookies_get_sent, Htoken. cbn [cookie_value js_to_string].
  rewrite Htruthy, Hrr, settle_reply_fulfilled by done. rewrite Haccess.
  by rewrite run_api_rec_retried.
Qed.

(** X1: a 401 followed by a successful refresh is invisible to the caller:
    when the re-issued request is fulfilled, the client resolves with that
    response after exactly one refresh call; the re-issued request carries
    the new token as its bearer, the access cookie holds the new token, the
    refresh cookie and both stores are as they were. *)
Theorem refresh_is_transparent
    (config : Config) (w : World) (token : string)
    (r1 rr r2 : Response) (access : JSValue) :
  _retry config = false →
  backend (net_log w) (ViaApi (outgoing w config)) = Reply r1 →
  status r1 = 401 →
  Cookies_get "refresh_token" w = Some token →
  truthy (JStr token) = true →
  backend (net_log (sent (ViaApi (outgoing w config)) w)) (refresh_call token)
  = Reply rr →
  validateStatus (status rr) = true →
  get_prop (data rr) "access" = Resolved access →
  (∀ log c,
      Authorization c = Some ("Bearer " +:+ js_to_string access) →
      backend log (ViaApi c) = Reply r2) →
  validateStatus (status r2) = true →
  ∃ w' reissued,
    run backend (api config w) = Some (w', Resolved r2)
    ∧ net_log w'
      = [ViaApi reissued; refresh_call token; ViaApi (outgoing w config)]
        ++ net_log w
    ∧ Authorization reissued = Some ("Bearer " +:+ js_to_string access)
    ∧ url reissued = url config
    ∧ method reissued = method config
    ∧ body reissued = body config
    ∧ Cookies_get "access_token" w' = Some (js_to_string access)
    ∧ Cookies_get "refresh_token" w' = Some token
    ∧ location_href w' = location_href w
    ∧ authStore w' = authStore w
    ∧ cartStore w' = cartStore w.
Proof.
  intros Hretry Hr1 Hs1 Htoken Htruthy Hrr Hsrr Haccess Hr2 Hs2.
  pose proof (run_api_refreshed config w token r1 rr access
                Hretry Hr1 Hs1 Htoken Htruthy Hrr Hsrr Haccess) as Hrun.
  cbv zeta in Hrun.
  set (w2 := Cookies_set "access_token" (js_to_string access)
               (sent (refresh_call token) (sent (ViaApi (outgoing w config)) w)))
    in *.
  set (reissued := outgoing w2 _) in *.
  assert (Hwin : is_Some (window w)).
  { unfold Cookies_get in Htoken. destruct (window w); [eauto|discriminate]. }
  assert (Hcookie : Cookies_get "access_token" w2 = Some (js_to_string access)).
  { unfold w2. rewrite Cookies_get_set_eq. simpl. by destruct Hwin as [b ->]. }
  assert (Hbearer : Authorization reissued
                    = Some ("Bearer " +:+ js_to_string access)).
  { unfold reissued. rewrite Authorization_outgoing, Hcookie.
    by destruct (String.eqb _ _). }
  rewrite (Hr2 _ _ Hbearer), settle_reply_fulfilled in Hrun by done.
  exists (sent (ViaApi reissued) w2), reissued.
  split; [done|].
  destruct (outgoing_fields w2
              (with_Authorization ("Bearer " +:+ js_to_string access)
                 (with_retry true (outgoing w config)))) as (Hm & Hu & Hb & _).
  destruct (outgoing_fields w config) as (Hm1 & Hu1 & Hb1 & _).
  repeat split.
  - unfold w2. by autorewrite with frame_db.
  - done.
  - unfold reissued. by rewrite Hu.
  - unfold reissued. by rewrite Hm.
  - unfold reissued. by rewrite Hb.
  - by rewrite Cookies_get_sent.
  - rewrite Cookies_get_sent. unfold w2.
    rewrite Cookies_get_set_ne by done. by autorewrite with frame_db.
  - unfold w2. by autorewrite with frame_db.
  - unfold w2. by autorewrite with frame_db.
  - unfold w2. by autorewrite with frame_db.
Qed.

(** X2: a request answered 2xx resolves with that response after exactly
    one network call.  The call has the caller's method, URL and body; its
    bearer is the access cookie when that is non-empty, and the caller's own
    header otherwise.  The world gains the log entry and nothing else. *)
Theorem fulfilled_request_touches_nothing (config : Config) (w : World) (r : Response) :
  backend (net_log w) (ViaApi (outgoing w config)) = Reply r →
  validateStatus (status r) = true →
  ∃ sent_config,
    run backend (api config w) = Some (sent (ViaApi sent_config) w, Resolved r)
    ∧ method sent_config = method config
    ∧ url sent_config = url config
    ∧ body sent_config = body config
    ∧ Authorization sent_config
      = match Cookies_get "access_token" w with
        | Some token =>
            if String.eqb token "" then Authorization config
            else Some ("Bearer " +:+ token)
        | None => Authorization config
        end.
Proof.
  intros Hr Hok. exists (outgoing w config).
  destruct (outgoing_fields w config) as (Hm & Hu & Hb & _).
  repeat split; auto using Authorization_outgoing.
  unfold api. rewrite run_api_rec. cbv zeta.
  by rewrite Hr, settle_reply_fulfilled.
Qed.

(** The run of a request whose first reply is a 401 and whose refresh flow
    fails. *)
Lemma run_api_refresh_failed config w r1 w2 e :
  _retry config = false →
  backend (net_log w) (ViaApi (outgoing w config)) = Reply r1 →
  status r1 = 401 →
  run backend (refresh_flow (with_retry true (outgoing w config))
                            (sent (ViaApi (outgoing w config)) w))
  = Some (w2, Rejected e) →
  run backend (api config w)
  = Some (purged w2,
          Rejected (AxiosError (with_retry true (outgoing w config)) (Some r1))).
Proof.
  intros Hretry Hr1 Hs1 Hflow.
  unfold api. rewrite run_api_rec. cbv zeta. rewrite Hr1.
  rewrite settle_reply_401 by done.
  rewrite run_response_interceptor_rejected.
  unfold recoverable_401, status_is_401.
  change (error_status (AxiosError (outgoing w config) (Some r1)))
    with (Some (status r1)).
  rewrite Hs1, retry_outgoing, Hretry.
  change ((401 =? 401) && negb false) with true. cbv iota.
  by rewrite Hflow.
Qed.

(** X3: when a request is answered 401 and the refresh cookie is missing or
    empty, no refresh call is sent: the request is the only network call.
    The session is purged and the original error, now marked [_retry], is
    rejected. *)
Theorem missing_refresh_token_sends_nothing
    (config : Config) (w : World) (r1 : Response) :
  _retry config = false →
  backend (net_log w) (ViaApi (outgoing w config)) = Reply r1 →
  status r1 = 401 →
  Cookies_get "refresh_token" w = None ∨ Cookies_get "refresh_token" w = Some "" →
  ∃ w',
    run backend (api config w)
    = Some (w', Rejected (AxiosError (with_retry true (outgoing w config)) (Some r1)))
    ∧ net_log w' = ViaApi (outgoing w config) :: net_log w
    ∧ Cookies_get "access_token" w' = None
    ∧ Cookies_get "refresh_token" w' = None
    ∧ localStorage_getItem "auth-storage" w' = None
    ∧ location_href w' = (λ _, "/login") <$> window w.
Proof.
  intros Hretry Hr1 Hs1 Htoken.
  assert (Hflow : run backend
                    (refresh_flow (with_retry true (outgoing w config))
                                  (sent (ViaApi (outgoing w config)) w))
                  = Some (sent (ViaApi (outgoing w config)) w,
                          Rejected (Error "No refresh token"))).
  { rewrite run_refresh_flow. cbv zeta. rewrite Cookies_get_sent.
    by destruct Htoken as [-> | ->]. }
  rewrite (run_api_refresh_failed _ _ _ _ _ Hretry Hr1 Hs1 Hflow).
  eexists. split; [reflexivity|].
  rewrite !Cookies_get_purged by auto.
  rewrite net_log_purged, location_href_purged, localStorage_getItem_purged.
  repeat split; auto; by case_decide.
Qed.

(** X4: a refresh reply with a 2xx status but a [null] or [undefined]
    payload counts as a failed refresh: destructuring it throws inside the
    [try], so the session is purged although the server accepted the refresh
    token, and the request is not re-issued. *)
Theorem refresh_without_payload_forces_logout
    (config : Config) (w : World) (token : string) (r1 rr : Response) :
  _retry config = false →
  backend (net_log w) (ViaApi (outgoing w config)) = Reply r1 →
  status r1 = 401 →
  Cookies_get "refresh_token" w = Some token →
  truthy (JStr token) = true →
  backend (net_log (sent (ViaApi (outgoing w config)) w)) (refresh_call token)
  = Reply rr →
  validateStatus (status rr) = true →
  data rr = JNull ∨ data rr = JUndefined →
  ∃ w',
    run backend (api config w)
    = Some (w', Rejected (AxiosError (with_retry true (outgoing w config)) (Some r1)))
    ∧ net_log w' = [refresh_call token; ViaApi (outgoing w config)] ++ net_log w
    ∧ Cookies_get "access_token" w' = None
    ∧ Cookies_get "refresh_token" w' = None
    ∧ localStorage_getItem "auth-storage" w' = None
    ∧ location_href w' = (λ _, "/login") <$> window w.
Proof.
  intros Hretry Hr1 Hs1 Htoken Htruthy Hrr Hsrr Hdata.
  assert (∃ e, run backend
                 (refresh_flow (with_retry true (outgoing w config))
                               (sent (ViaApi (outgoing w config)) w))
               = Some (sent (refresh_call token) (sent (ViaApi (outgoing w config)) w),
                       Rejected e)) as [e Hflow].
  { rewrite run_refresh_flow. cbv zeta. rewrite Cookies_get_sent, Htoken.
    cbn [cookie_value js_to_string].
    rewrite Htruthy, Hrr, settle_reply_fulfilled by done.
    destruct Hdata as [-> | ->]; simpl; eauto. }
  rewrite (run_api_refresh_failed _ _ _ _ _ Hretry Hr1 Hs1 Hflow).
  eexists. split; [reflexivity|].
  rewrite !Cookies_get_purged by auto.
  rewrite net_log_purged, location_href_purged, localStorage_getItem_purged.
  repeat split; auto; by case_decide.
Qed.

(** X5: a refresh reply with a 2xx status whose payload has no [access]
    property does not count as a failure: the access cookie is set to the
    text [undefined] and the request is re-issued with the bearer
    [Bearer undefined]; whatever that request gets is the outcome. *)
Theorem refresh_without_access_key
    (config : Config) (w : World) (token : string) (r1 rr : Response) :
  _retry config = false →
  backend (net_log w) (ViaApi (outgoing w config)) = Reply r1 →
  status r1 = 401 →
  Cookies_get "refresh_token" w = Some token →
  truthy (JStr token) = true →
  backend (net_log (sent (ViaApi (outgoing w config)) w)) (refresh_call token)
  = Reply rr →
  validateStatus (status rr) = true →
  get_prop (data rr) "access" = Resolved JUndefined →
  ∃ w' r reissued,
    run backend (api config w) = Some (w', r)
    ∧ net_log w'
      = [ViaApi reissued; refresh_call token; ViaApi (outgoing w config)]
        ++ net_log w
    ∧ Authorization reissued = Some "Bearer undefined"
    ∧ Cookies_get "access_token" w' = Some "undefined"
    ∧ Cookies_get "refresh_token" w' = Some token.
Proof.
  intros Hretry Hr1 Hs1 Htoken Htruthy Hrr Hsrr Haccess.
  pose proof (run_api_refreshed config w token r1 rr JUndefined
                Hretry Hr1 Hs1 Htoken Htruthy Hrr Hsrr Haccess) as Hrun.
  cbv zeta in Hrun. cbn [js_to_string] in Hrun.
  set (w2 := Cookies_set "access_token" "undefined"
               (sent (refresh_call token) (sent (ViaApi (outgoing w config)) w)))
    in *.
  set (reissued := outgoing w2 _) in *.
  assert (Hwin : is_Some (window w)).
  { unfold Cookies_get in Htoken. destruct (window w); [eauto|discriminate]. }
  assert (Hcookie : Cookies_get "access_token" w2 = Some "undefined").
  { unfold w2. rewrite Cookies_get_set_eq. simpl. by destruct Hwin as [b ->]. }
  eexists _, _, reissued. split; [exact Hrun|].
  repeat split.
  - unfold w2. by autorewrite with frame_db.
  - unfold reissued. by rewrite Authorization_outgoing, Hcookie.
  - by rewrite Cookies_get_sent.
  - rewrite Cookies_get_sent. unfold w2.
    rewrite Cookies_get_set_ne by done. by autorewrite with frame_db.
Qed.

(** X6: the client never writes to the stores: whatever a request does
    (refresh, re-issue, purge of cookies and localStorage, navigation), the
    in-memory auth state and cart state are what they were. *)
Theorem client_never_touches_stores (config : Config) (w : World) :
  ∃ w' r,
    run backend (api config w) = Some (w', r)
    ∧ authStore w' = authStore w
    ∧ cartStore w' = cartStore w.
Proof.
  destruct (api_settles backend config w) as (w' & r & Hrun & Hout).
  exists w', r. split; [done|]. eauto using api_outcome_stores.
Qed.

End Client_extras.

(** ** The auth store *)

Lemma cartStore_persist_auth s w :
  cartStore (persist "auth-storage" auth_partialize (with_authStore s w)) = cartStore w.
Proof. frame. Qed.
Lemma authStore_persist_cart s w :
  authStore (persist "cart-storage" cart_partialize (with_cartStore s w)) = authStore w.
Proof. frame. Qed.
Lemma cartStore_persist_cart s w :
  cartStore (persist "cart-storage" cart_partialize (with_cartStore s w)) = s.
Proof. frame. Qed.





Section Auth_extras.

Variable backend : Backend.

(** The first call of a request is the request itself; a refresh and a
    re-issue may follow. *)
Lemma api_outcome_log config w w' r :
  api_outcome backend config w w' r →
  ∃ later, net_log w' = later ++ ViaApi (outgoing w config) :: net_log w.
Proof.
  assert (Hflow : ∀ c w1 w2 r2, refresh_outcome backend c w1 w2 r2 →
            ∃ later, net_log w2 = later ++ net_log w1).
  { inversion 1; subst; autorewrite with frame_db;
      [by exists [] | by eexists [_] ..]. }
  inversion 1 as [? ? ?|? ? ? ? ? ? Hout|? ? ? ? ? ? Hout ?]; subst;
    autorewrite with frame_db.
  - by exists [].
  - apply Hflow in Hout as [later ->]. autorewrite with frame_db. by exists later.
  - apply Hflow in Hout as [later ->]. autorewrite with frame_db.
    by exists (ViaApi (outgoing w2 request) :: later).
Qed.

Lemma run_logout w :
  run backend (logout w) =
  let refreshToken := cookie_value (Cookies_get "refresh_token" w) in
  if truthy refreshToken then
    match run backend (logout_call refreshToken w) with
    | Some (w1, _) => Some (signed_out w1, Resolved tt)
    | None => None
    end
  else Some (signed_out w, Resolved tt).
Proof.
  unfold logout, try_finally. rewrite run_finally.
  unfold try_catch. rewrite run_catch.
  unfold bind at 1, gets at 1. cbn [step_bind]. cbv zeta.
  destruct (truthy _); [|reflexivity].
  unfold bind at 1. rewrite run_bind. fold (logout_call (cookie_value (Cookies_get "refresh_token" w))).
  destruct (run backend (logout_call _ w)) as [[w1 [response|e]]|]; reflexivity.
Qed.


(** X8: [logout] tells the backend only when there is a refresh token.
    With a non-empty refresh cookie its first network call is the POST to
    ['/users/logout/'] carrying that token; with the cookie missing or empty
    it makes no network call at all. *)
Theorem logout_notifies_backend_iff_token (w : World) :
  ∃ w',
    run backend (logout w) = Some (w', Resolved tt)
    ∧ match Cookies_get "refresh_token" w with
      | Some token =>
          if String.eqb token "" then net_log w' = net_log w
          else ∃ later sent_config,
                 net_log w' = later ++ ViaApi sent_config :: net_log w
                 ∧ method sent_config = POST
                 ∧ url sent_config = "/users/logout/"
                 ∧ body sent_config = JObj [("refresh", JStr token)]
      | None => net_log w' = net_log w
      end.
Proof.
  assert (Hlog : ∀ w1, net_log (signed_out w1) = net_log w1).
  { intros w1. by destruct w1 as [[b|] a c l]. }
  rewrite run_logout. cbv zeta.
  destruct (Cookies_get "refresh_token" w) as [token|] eqn:Htoken;
    cbn [cookie_value truthy].
  - destruct (String.eqb token "") eqn:Hempty; cbn [negb].
    + eexists. split; [reflexivity|]. apply Hlog.
    + destruct (api_settles backend
                  (mkConfig POST "/users/logout/" (JObj [("refresh", JStr token)])
                     None false) w) as (w1 & r & Hrun & Hout).
      unfold logout_call, api_post. rewrite Hrun.
      eexists. split; [reflexivity|].
      apply api_outcome_log in Hout as [later Hlater].
      exists later, (outgoing w (mkConfig POST "/users/logout/"
                                   (JObj [("refresh", JStr token)]) None false)).
      rewrite Hlog, Hlater.
      destruct (outgoing_fields w (mkConfig POST "/users/logout/"
                                     (JObj [("refresh", JStr token)]) None false))
        as (Hm & Hu & Hb & _).
      by rewrite Hm, Hu, Hb.
  - eexists. split; [reflexivity|]. apply Hlog.
Qed.

End Auth_extras.

Section Register_extras.

Variable backend : Backend.

Lemma run_register registerData w :
  run backend (register registerData w) =
  match run backend (register_call registerData (auth_loading true w)) with
  | Some (w1, Resolved response) =>
      match get_prop (data response) "tokens" with
      | Resolved tokens =>
          match get_prop tokens "access" with
          | Resolved access =>
              Some (auth_loading false
                      (registered (opt_prop (data response) "user")
                         (Cookies_set "refresh_token"
                            (js_to_string (opt_prop tokens "refresh"))
                            (Cookies_set "access_token" (js_to_string access) w1))),
                    Resolved tt)
          | Rejected e => Some (auth_loading false w1, Rejected e)
          end
      | Rejected e => Some (auth_loading false w1, Rejected e)
      end
  | Some (w1, Rejected e) => Some (auth_loading false w1, Rejected e)
  | None => None
  end.
Proof.
  unfold register.
  unfold bind at 1. unfold set_auth at 1, modify. cbn [step_bind].
  fold (auth_loading true w).
  unfold try_finally. rewrite run_finally.
  unfold bind at 1. rewrite run_bind.
  fold (register_call registerData).
  destruct (run backend (register_call registerData (auth_loading true w)))
    as [[w1 [response|e]]|]; [|reflexivity|reflexivity].
  unfold bind, settle, set_auth, modify.
  destruct (data response) eqn:Hdata; cbn [get_prop step_bind run]; try reflexivity;
    destruct (opt_prop _ "tokens") eqn:Htokens;
    cbn [get_prop step_bind run]; reflexivity.
Qed.

(** X9: a fulfilled [register] stores the [user] of the response payload
    and sets [isAuthenticated], writes both token cookies from
    [tokens.access] and [tokens.refresh], and makes no further network call
    (there is no profile fetch); [isLoading] is back to [false]. *)
Theorem register_stores_user_and_tokens
    (registerData : JSValue) (w w1 : World) (response : Response)
    (tokens access : JSValue) :
  run backend (register_call registerData (auth_loading true w))
  = Some (w1, Resolved response) →
  get_prop (data response) "tokens" = Resolved tokens →
  get_prop tokens "access" = Resolved access →
  ∃ w',
    run backend (register registerData w) = Some (w', Resolved tt)
    ∧ user (authStore w') = opt_prop (data response) "user"
    ∧ isAuthenticated (authStore w') = true
    ∧ auth_isLoading (authStore w') = false
    ∧ Cookies_get "access_token" w' = (λ _, js_to_string access) <$> window w1
    ∧ Cookies_get "refresh_token" w'
      = (λ _, js_to_string (opt_prop tokens "refresh")) <$> window w1
    ∧ net_log w' = net_log w1.
Proof.
  intros Hcall Htokens Haccess.
  rewrite run_register, Hcall, Htokens, Haccess.
  eexists. split; [reflexivity|].
  destruct w1 as [[b|] a c l]; repeat split; try reflexivity.
  - unfold Cookies_get; simpl. rewrite lookup_insert_ne by done.
    by rewrite lookup_insert_eq.
  - unfold Cookies_get; simpl. by rewrite lookup_insert_eq.
Qed.

Lemma register_rejected_state registerData w w' e :
  run backend (register registerData w) = Some (w', Rejected e) →
  user (authStore w') = user (authStore w)
  ∧ isAuthenticated (authStore w') = isAuthenticated (authStore w)
  ∧ auth_isLoading (authStore w') = false.
Proof.
  assert (Hkeep : ∀ w1 r,
            run backend (register_call registerData (auth_loading true w))
            = Some (w1, r) →
            user (authStore (auth_loading false w1)) = user (authStore w)
            ∧ isAuthenticated (authStore (auth_loading false w1))
              = isAuthenticated (authStore w)
            ∧ auth_isLoading (authStore (auth_loading false w1)) = false).
  { intros w1 r Hcall. apply api_keeps_stores in Hcall as [Hauth _].
    destruct (authStore_auth_loading false w1) as [-> ->]. rewrite Hauth.
    destruct (authStore_auth_loading true w) as [-> ->].
    repeat split. by destruct w1 as [[b|] a c l]. }
  rewrite run_register.
  destruct (run backend (register_call registerData (auth_loading true w)))
    as [[w1 [response|e1]]|] eqn:Hcall; [| |discriminate].
  - destruct (get_prop (data response) "tokens") as [tokens|e2].
    + destruct (get_prop tokens "access") as [access|e3]; [discriminate|].
      intros [= <- <-]. eauto.
    + intros [= <- <-]. eauto.
  - intros [= <- <-]. eauto.
Qed.


(** X11: a fulfilled register call whose payload is [null] or [undefined],
    or whose [tokens] are, makes [register] reject with a TypeError before
    any cookie is written: the cookies are what the call left, and the
    store's [user] and [isAuthenticated] are what they were. *)
Theorem register_malformed_payload_writes_no_cookie
    (registerData : JSValue) (w w1 : World) (response : Response) :
  run backend (register_call registerData (auth_loading true w))
  = Some (w1, Resolved response) →
  nullish (data response) ∨ nullish (opt_prop (data response) "tokens") →
  ∃ w' msg,
    run backend (register registerData w) = Some (w', Rejected (TypeError msg))
    ∧ (∀ name, Cookies_get name w' = Cookies_get name w1)
    ∧ user (authStore w') = user (authStore w)
    ∧ isAuthenticated (authStore w') = isAuthenticated (authStore w).
Proof.
  intros Hcall Hbad.
  assert (∃ msg, run backend (register registerData w)
                 = Some (auth_loading false w1, Rejected (TypeError msg)))
    as [msg Hrun].
  { rewrite run_register, Hcall.
    destruct Hbad as [[Hnull | Hnull] | [Htokens | Htokens]].
    - rewrite Hnull. simpl. eauto.
    - rewrite Hnull. simpl. eauto.
    - destruct (data response) eqn:Hdata; simpl in *; eauto;
        rewrite Htokens; simpl; eauto.
    - destruct (data response) eqn:Hdata; simpl in *; eauto;
        rewrite Htokens; simpl; eauto. }
  exists (auth_loading false w1), msg. split; [done|]. split.
  - intros name. by destruct w1 as [[b|] a c l].
  - apply register_rejected_state in Hrun. tauto.
Qed.

End Register_extras.

Section Session_extras.

Variable backend : Backend.


(** X13: a [login] whose credential call and profile request are both
    fulfilled stores the profile payload as [user] with
    [isAuthenticated = true]; both token cookies hold the tokens of the
    credential response, and the profile request went out with the new
    access token as its bearer. *)
Theorem login_stores_profile
    (email password : string) (w w1 : World)
    (response profile : Response) (access refresh : JSValue) :
  run backend (credential_call email password (auth_loading true w))
  = Some (w1, Resolved response) →
  get_prop (data response) "access" = Resolved access →
  get_prop (data response) "refresh" = Resolved refresh →
  is_Some (window w1) →
  truthy (JStr (js_to_string access)) = true →
  let w2 := Cookies_set "refresh_token" (js_to_string refresh)
              (Cookies_set "access_token" (js_to_string access) w1) in
  backend (net_log w2)
          (ViaApi (mkConfig GET "/users/profile/" JUndefined
                            (Some ("Bearer " +:+ js_to_string access)) false))
  = Reply profile →
  validateStatus (status profile) = true →
  ∃ w',
    run backend (login email password w) = Some (w', Resolved tt)
    ∧ user (authStore w') = data profile
    ∧ isAuthenticated (authStore w') = true
    ∧ auth_isLoading (authStore w') = false
    ∧ Cookies_get "access_token" w' = Some (js_to_string access)
    ∧ Cookies_get "refresh_token" w' = Some (js_to_string refresh)
    ∧ net_log w'
      = ViaApi (mkConfig GET "/users/profile/" JUndefined
                         (Some ("Bearer " +:+ js_to_string access)) false)
        :: net_log w1.
Proof.
  intros Hcall Haccess Hrefresh [b Hwin] Htruthy w2 Hprofile Hok.
  assert (Hcookie : Cookies_get "access_token" w2 = Some (js_to_string access)).
  { unfold w2. rewrite Cookies_get_set_ne by done.
    rewrite Cookies_get_set_eq. by rewrite Hwin. }
  assert (Hout : outgoing w2 (mkConfig GET "/users/profile/" JUndefined None false)
                 = mkConfig GET "/users/profile/" JUndefined
                            (Some ("Bearer " +:+ js_to_string access)) false).
  { unfold outgoing. rewrite Hcookie. cbn [cookie_value js_to_string].
    by rewrite Htruthy. }
  assert (Hget : run backend (api_get "/users/profile/" w2)
                 = Some (sent (ViaApi (mkConfig GET "/users/profile/" JUndefined
                                  (Some ("Bearer " +:+ js_to_string access)) false))
                              w2, Resolved profile)).
  { unfold api_get, api. rewrite run_api_rec. cbv zeta.
    by rewrite Hout, Hprofile, settle_reply_fulfilled. }
  rewrite run_login, Hcall, Haccess, Hrefresh. fold w2.
  rewrite run_fetchProfile, Hget.
  eexists. split; [reflexivity|].
  unfold w2. destruct w1 as [[b1|] a c l]; [|discriminate].
  repeat split; try reflexivity.
  - unfold Cookies_get; simpl. rewrite lookup_insert_ne by done.
    by rewrite lookup_insert_eq.
  - unfold Cookies_get; simpl. by rewrite lookup_insert_eq.
Qed.

Lemma run_updateProfile profileData w :
  run backend (updateProfile profileData w) =
  match run backend (profile_patch profileData w) with
  | Some (w1, Resolved response) =>
      match get_prop (data response) "user" with
      | Resolved user =>
          Some (persist "auth-storage" auth_partialize
                  (with_authStore (put_user user (authStore w1)) w1), Resolved tt)
      | Rejected e => Some (w1, Rejected e)
      end
  | Some (w1, Rejected e) => Some (w1, Rejected e)
  | None => None
  end.
Proof.
  unfold updateProfile. unfold bind at 1. rewrite run_bind.
  fold (profile_patch profileData).
  destruct (run backend (profile_patch profileData w))
    as [[w1 [response|e]]|]; try reflexivity.
  unfold bind, settle, set_auth, modify.
  destruct (get_prop _ _); reflexivity.
Qed.


End Session_extras.



Lemma localStorage_getItem_persist_ne key name p w :
  key ≠ name →
  localStorage_getItem key (persist name p w) = localStorage_getItem key w.
Proof.
  intros Hne. destruct w as [[b|] a c l]; [|reflexivity].
  unfold localStorage_getItem, persist, localStorage_setItem; simpl.
  by rewrite lookup_insert_ne.
Qed.

Section Persist_extras.

Variable backend : Backend.

Lemma run_setUser u w :
  run backend (setUser u w)
  = Some (persist "auth-storage" auth_partialize
            (with_authStore (put_isAuthenticated (truthy u) (put_user u (authStore w))) w),
          Resolved tt).
Proof. reflexivity. Qed.


End Persist_extras.

Lemma same_cart_trans w1 w2 w3 : same_cart w1 w2 → same_cart w2 w3 → same_cart w1 w3.
Proof. intros [H1 H2] [H3 H4]. split; congruence. Qed.

Lemma same_cart_auth_set s w :
  same_cart w (persist "auth-storage" auth_partialize (with_authStore s w)).
Proof.
  split; [apply cartStore_persist_auth|].
  by rewrite localStorage_getItem_persist_ne.
Qed.

Lemma same_cart_Cookies_set n v w : same_cart w (Cookies_set n v w).
Proof. split; frame. Qed.

Lemma same_cart_Cookies_remove n w : same_cart w (Cookies_remove n w).
Proof. split; frame. Qed.

Section Independence_extras.

Variable backend : Backend.

Lemma same_cart_api config w w' r :
  run backend (api config w) = Some (w', r) → same_cart w w'.
Proof.
  destruct (api_settles backend config w) as (w1 & r1 & -> & Hout).
  intros [= <- <-].
  assert (Hflow : ∀ c wa wb rb, refresh_outcome backend c wa wb rb →
            same_cart wa wb).
  { inversion 1; subst; split; autorewrite with frame_db; auto. }
  assert (Hpurge : ∀ w0, same_cart w0 (purged w0)).
  { intros w0. split; [apply cartStore_purged|].
    rewrite localStorage_getItem_purged. by case_decide. }
  assert (Hsent : ∀ c w0, same_cart w0 (sent c w0)) by (intros; by split).
  inversion Hout as [? ? ?|? ? ? ? ? ? Hrefresh|? ? ? ? ? ? Hrefresh ?]; subst.
  - apply Hsent.
  - eapply same_cart_trans; [apply Hsent|].
    eapply same_cart_trans; [eapply Hflow, Hrefresh|apply Hpurge].
  - eapply same_cart_trans; [apply Hsent|].
    eapply same_cart_trans; [eapply Hflow, Hrefresh|apply Hsent].
Qed.

Lemma same_cart_fetchProfile w w' r :
  run backend (fetchProfile w) = Some (w', r) → same_cart w w'.
Proof.
  rewrite run_fetchProfile.
  destruct (run backend (api_get "/users/profile/" w))
    as [[w1 [response|e]]|] eqn:Hcall; [| |discriminate];
    intros [= <- <-]; apply same_cart_api in Hcall;
    (eapply same_cart_trans; [exact Hcall|apply same_cart_auth_set]).
Qed.

(** X16: no auth store action touches the cart: after [login], [register],
    [logout], [fetchProfile], [updateProfile] or [setUser] the cart store
    and its persisted snapshot are what they were.  In particular [logout]
    leaves the cart of the user who logged out in place. *)
Theorem auth_actions_leave_cart
    (a : AuthAction) (w w' : World) (r : Result unit) :
  run backend (auth_action a w) = Some (w', r) →
  cartStore w' = cartStore w
  ∧ localStorage_getItem "cart-storage" w' = localStorage_getItem "cart-storage" w.
Proof.
  change (run backend (auth_action a w) = Some (w', r) → same_cart w w').
  assert (Hload : ∀ b w0, same_cart w0 (auth_loading b w0))
    by (intros; apply same_cart_auth_set).
  destruct a as [email password|registerData| | |profileData|u];
    cbn [auth_action].
  - rewrite run_login.
    destruct (run backend (credential_call _ _ _))
      as [[w1 [response|e]]|] eqn:Hcall; [| |discriminate];
      apply same_cart_api in Hcall;
      pose proof (same_cart_trans _ _ _ (Hload true w) Hcall) as H1.
    + destruct (get_prop (data response) "access") as [access|e].
      * destruct (get_prop (data response) "refresh") as [refresh|e].
        -- destruct (run backend (fetchProfile _))
             as [[w2 [u|e]]|] eqn:Hprofile; [| |discriminate];
             apply same_cart_fetchProfile in Hprofile; intros [= <- <-];
             (eapply same_cart_trans; [exact H1|]);
             (eapply same_cart_trans; [apply same_cart_Cookies_set|]);
             (eapply same_cart_trans; [apply same_cart_Cookies_set|]);
             (eapply same_cart_trans; [exact Hprofile|]);
             first [ apply Hload
                   | eapply same_cart_trans;
                     [apply (same_cart_auth_set
                               (put_isAuthenticated true (authStore w2)))
                     |apply Hload] ].
        -- intros [= <- <-]. eapply same_cart_trans; [exact H1|apply Hload].
      * destruct (get_prop (data response) "refresh");
          intros [= <- <-]; (eapply same_cart_trans; [exact H1|apply Hload]).
    + intros [= <- <-]. eapply same_cart_trans; [exact H1|apply Hload].
  - rewrite run_register.
    destruct (run backend (register_call _ _))
      as [[w1 [response|e]]|] eqn:Hcall; [| |discriminate];
      apply same_cart_api in Hcall;
      pose proof (same_cart_trans _ _ _ (Hload true w) Hcall) as H1.
    + destruct (get_prop (data response) "tokens") as [tokens|e].
      * destruct (get_prop tokens "access") as [access|e]; intros [= <- <-].
        -- eapply same_cart_trans; [exact H1|].
           eapply same_cart_trans; [apply same_cart_Cookies_set|].
           eapply same_cart_trans; [apply same_cart_Cookies_set|].
           eapply same_cart_trans; [apply same_cart_auth_set|].
           apply Hload.
        -- eapply same_cart_trans; [exact H1|apply Hload].
      * intros [= <- <-]. eapply same_cart_trans; [exact H1|apply Hload].
    + intros [= <- <-]. eapply same_cart_trans; [exact H1|apply Hload].
  - assert (Hout : ∀ w0, same_cart w0 (signed_out w0)).
    { intros w0. unfold signed_out, profile_cleared.
      eapply same_cart_trans; [apply same_cart_Cookies_remove|].
      eapply same_cart_trans; [apply same_cart_Cookies_remove|].
      apply same_cart_auth_set. }
    rewrite run_logout. cbv zeta.
    destruct (truthy _).
    + destruct (run backend (logout_call _ _)) as [[w1 r1]|] eqn:Hcall;
        [|discriminate].
      apply same_cart_api in Hcall. intros [= <- <-].
      eapply same_cart_trans; [exact Hcall|apply Hout].
    + intros [= <- <-]. apply Hout.
  - apply same_cart_fetchProfile.
  - rewrite run_updateProfile.
    destruct (run backend (profile_patch _ _))
      as [[w1 [response|e]]|] eqn:Hcall; [| |discriminate];
      apply same_cart_api in Hcall.
    + destruct (get_prop (data response) "user") as [u|e]; intros [= <- <-];
        [|done].
      eapply same_cart_trans; [exact Hcall|apply same_cart_auth_set].
    + by intros [= <- <-].
  - rewrite run_setUser. intros [= <- <-]. apply same_cart_auth_set.
Qed.

End Independence_extras.

(** ** The cart store *)

Section Cart_extras.

Variable backend : Backend.

Lemma run_fetchCart w :
  run backend (fetchCart w) =
  match run backend (api_get "/cart/" (cart_loading w)) with
  | Some (w1, Resolved response) =>
      Some (cart_loaded (cart_stored (data response) w1), Resolved tt)
  | Some (w1, Rejected e) => Some (cart_loaded (cart_fetch_failed e w1), Resolved tt)
  | None => None
  end.
Proof.
  unfold fetchCart.
  unfold bind at 1. unfold set_cart at 1, modify. cbn [step_bind].
  fold (cart_loading w).
  unfold try_finally. rewrite run_finally.
  unfold try_catch. rewrite run_catch.
  unfold bind at 1. rewrite run_bind.
  destruct (run backend (api_get "/cart/" (cart_loading w)))
    as [[w1 [response|e]]|]; reflexivity.
Qed.




(** X20: no cart store action touches the auth store in memory, even when
    the client purges the session under it. *)
Theorem cart_actions_leave_auth_state
    (a : CartAction) (w w' : World) (r : Result unit) :
  run backend (cart_action a w) = Some (w', r) →
  authStore w' = authStore w.
Proof.
  assert (Hcall : ∀ m w1 r1,
            run backend (server_call m (cart_loading w)) = Some (w1, r1) →
            authStore w1 = authStore w).
  { intros m w1 r1. destruct m; unfold server_call, api_post; intros Hrun;
      apply api_keeps_stores in Hrun as [-> _]; apply authStore_persist_cart. }
  destruct a as [|m]; cbn [cart_action].
  - rewrite run_fetchCart.
    destruct (run backend (api_get _ _)) as [[w1 [response|e]]|] eqn:Hrun;
      [| |discriminate]; intros [= <- <-];
      apply api_keeps_stores in Hrun as [Hauth _];
      unfold cart_loaded, cart_stored, cart_fetch_failed;
      rewrite !authStore_persist_cart, Hauth; apply authStore_persist_cart.
  - rewrite run_perform.
    destruct (run backend (server_call _ _)) as [[w1 [response|e]]|] eqn:Hrun;
      [| |discriminate]; apply Hcall in Hrun.
    + rewrite run_on_fulfilled.
      destruct m; try (destruct (get_prop (data response) "cart"));
        intros [= <- <-]; unfold cart_loaded, cart_failed;
        by rewrite !authStore_persist_cart.
    + intros [= <- <-]. unfold cart_loaded, cart_failed.
      by rewrite !authStore_persist_cart.
Qed.

End Cart_extras.

(** ** Two cart mutations in flight *)

Lemma perform_suspends m w :
  perform m w
  = Await (cart_loading w)
          (ViaApi (outgoing (cart_loading w) (mutation_config m)))
          (mutation_continuation m (outgoing (cart_loading w) (mutation_config m))).
Proof.
  rewrite perform_shape.
  unfold bind at 1. unfold set_cart at 1, modify. cbn [step_bind].
  fold (cart_loading w).
  unfold try_finally, try_catch. unfold bind at 1.
  replace (server_call m (cart_loading w))
    with (api (mutation_config m) (cart_loading w)) by (by destruct m).
  rewrite api_suspends. reflexivity.
Qed.

Lemma mutation_continuation_fulfilled m config r snapshot w :
  validateStatus (status r) = true →
  landed m r = Resolved snapshot →
  mutation_continuation m config (Reply r) w
  = Done (cart_loaded (cart_stored snapshot w)) (Resolved tt).
Proof.
  intros Hok Hland. unfold mutation_continuation, api_continuation.
  rewrite settle_reply_fulfilled by done.
  cbn [step_bind step_catch response_interceptor_fulfilled ret].
  destruct m; cbn [landed] in Hland; cbn [on_fulfilled];
    try (unfold bind at 1, settle at 1; rewrite Hland);
    try (injection Hland as <-); reflexivity.
Qed.

(** X21: with two cart mutations in flight, the store ends with the snapshot
    of whichever response is delivered last, not of the mutation issued
    last: delivered in order, the second mutation's snapshot stays;
    delivered crossed, the first mutation's snapshot overwrites it. *)
Theorem last_response_wins
    (m1 m2 : CartMutation) (w : World) (r1 r2 : Response) (s1 s2 : JSValue) :
  validateStatus (status r1) = true →
  validateStatus (status r2) = true →
  landed m1 r1 = Resolved s1 →
  landed m2 r2 = Resolved s2 →
  let in_order := deliver 0 (Reply r2) (deliver 0 (Reply r1) (two_in_flight m1 m2 w)) in
  let crossed := deliver 0 (Reply r1) (deliver 1 (Reply r2) (two_in_flight m1 m2 w)) in
  cart (cartStore (loop_world in_order)) = s2
  ∧ cart (cartStore (loop_world crossed)) = s1
  ∧ settled in_order = [Resolved tt; Resolved tt]
  ∧ settled crossed = [Resolved tt; Resolved tt]
  ∧ in_flight in_order = []
  ∧ in_flight crossed = [].
Proof.
  intros Hok1 Hok2 Hland1 Hland2 in_order crossed.
  subst in_order crossed. unfold two_in_flight, spawn.
  cbn [loop_world]. rewrite perform_suspends. cbn [advance loop_world in_flight settled app].
  rewrite perform_suspends. cbn [advance loop_world in_flight settled app].
  unfold deliver. cbn [in_flight lookup list_lookup delete list_delete loop_world settled].
  rewrite !(mutation_continuation_fulfilled m1 _ r1 s1) by done.
  rewrite !(mutation_continuation_fulfilled m2 _ r2 s2) by done.
  cbn [advance in_flight lookup list_lookup delete list_delete loop_world settled app].
  rewrite !(mutation_continuation_fulfilled m1 _ r1 s1) by done.
  rewrite !(mutation_continuation_fulfilled m2 _ r2 s2) by done.
  cbn [advance loop_world in_flight settled app].
  repeat split; unfold cart_loaded, cart_stored;
    by rewrite !cartStore_persist_cart.
Qed.

(** X22: while one of two cart mutations is still in flight, the response to
    the other already sets [isLoading] to [false]: the flag does not count
    requests. *)
Theorem isLoading_clears_with_request_in_flight
    (m1 m2 : CartMutation) (w : World) (r2 : Response) (s2 : JSValue) :
  validateStatus (status r2) = true →
  landed m2 r2 = Resolved s2 →
  let l := deliver 1 (Reply r2) (two_in_flight m1 m2 w) in
  cart_isLoading (cartStore (loop_world (two_in_flight m1 m2 w))) = true
  ∧ cart_isLoading (cartStore (loop_world l)) = false
  ∧ (in_flight l).*1
    = [ViaApi (outgoing (cart_loading w) (mutation_config m1))]
  ∧ settled l = [Resolved tt].
Proof.
  intros Hok2 Hland2 l. subst l. unfold two_in_flight, spawn.
  cbn [loop_world]. rewrite perform_suspends.
  cbn [advance loop_world in_flight settled app].
  rewrite perform_suspends.
  cbn [advance loop_world in_flight settled app].
  unfold deliver.
  cbn [in_flight lookup list_lookup delete list_delete loop_world settled].
  rewrite !(mutation_continuation_fulfilled m2 _ r2 s2) by done.
  cbn [advance in_flight loop_world settled app fmap list_fmap fst].
  repeat split; by destruct w as [[b|] a c l].
Qed.

(** ** Pages *)

Section Page_extras.

Variable backend : Backend.

Lemma login_settles email password w :
  ∃ w' r, run backend (login email password w) = Some (w', r).
Proof.
  rewrite run_login.
  destruct (api_settles backend
              (mkConfig POST "/users/login/"
                 (JObj [("email", JStr email); ("password", JStr password)])
                 None false) (auth_loading true w)) as (w1 & r & Hrun & _).
  unfold credential_call, api_post. rewrite Hrun.
  destruct r as [response|e]; [|eauto].
  destruct (get_prop (data response) "access") as [access|e]; [|eauto].
  destruct (get_prop (data response) "refresh") as [refresh|e]; [|eauto].
  destruct (fetchProfile_resolves backend
              (Cookies_set "refresh_token" (js_to_string refresh)
                 (Cookies_set "access_token" (js_to_string access) w1)))
    as (w2 & ->).
  eauto.
Qed.

Lemma run_login_onSubmit email password ui w :
  run backend (login_onSubmit email password ui w) =
  match run backend (login email password w) with
  | Some (w1, Resolved _) =>
      Some (w1, Resolved
                  (setIsSubmitting false
                     (router_push "/"
                        (form_toast (ToastSuccess (JStr "Welcome back."))
                           (setIsSubmitting true ui)))))
  | Some (w1, Rejected e) =>
      Some (w1, Resolved
                  (setIsSubmitting false
                     (form_toast
                        (ToastError (js_or (opt_prop (error_data e) "detail")
                                           (JStr "Login failed")))
                        (setIsSubmitting true ui))))
  | None => None
  end.
Proof.
  unfold login_onSubmit. cbv zeta.
  unfold bind at 1. rewrite run_bind.
  unfold try_catch. rewrite run_catch.
  unfold bind at 1. rewrite run_bind.
  destruct (run backend (login email password w)) as [[w1 [u|e]]|]; reflexivity.
Qed.

(** X23: the login page's [onSubmit] never rejects and always ends with
    [isSubmitting = false].  When [login] resolves it shows the toast
    ['Welcome back.'] and pushes ['/']; when [login] rejects it pushes
    nothing and shows, as an error toast, the [detail] of the error payload
    or ['Login failed'] when there is none. *)
Theorem login_page_never_rejects (email password : string) (ui : FormUI) (w : World) :
  ∃ w' ui',
    run backend (login_onSubmit email password ui w) = Some (w', Resolved ui')
    ∧ isSubmitting ui' = false
    ∧ match run backend (login email password w) with
      | Some (w1, Resolved _) =>
          w' = w1
          ∧ toasts ui' = toasts ui ++ [ToastSuccess (JStr "Welcome back.")]
          ∧ pushed ui' = pushed ui ++ ["/"]
      | Some (w1, Rejected e) =>
          w' = w1
          ∧ toasts ui'
            = toasts ui ++ [ToastError (js_or (opt_prop (error_data e) "detail")
                                              (JStr "Login failed"))]
          ∧ pushed ui' = pushed ui
      | None => False
      end.
Proof.
  rewrite run_login_onSubmit.
  destruct (login_settles email password w) as (w1 & r & ->).
  destruct r as [u|e]; eexists _, _; (split; [reflexivity|]); auto.
Qed.

(** X24: once the backend has accepted the credentials, the login page
    welcomes the user and sends them to ['/'] with [isAuthenticated = true],
    whatever becomes of the profile request that follows. *)
Theorem login_page_welcomes_on_accepted_credentials
    (email password : string) (ui : FormUI) (w w1 : World)
    (response : Response) (access : JSValue) :
  run backend (credential_call email password (auth_loading true w))
  = Some (w1, Resolved response) →
  get_prop (data response) "access" = Resolved access →
  ∃ w' ui',
    run backend (login_onSubmit email password ui w) = Some (w', Resolved ui')
    ∧ toasts ui' = toasts ui ++ [ToastSuccess (JStr "Welcome back.")]
    ∧ pushed ui' = pushed ui ++ ["/"]
    ∧ isSubmitting ui' = false
    ∧ isAuthenticated (authStore w') = true.
Proof.
  intros Hcall Haccess.
  assert (∃ w', run backend (login email password w) = Some (w', Resolved tt))
    as [w' Hrun].
  { rewrite run_login, Hcall, Haccess.
    destruct (data response) eqn:Hdata; simpl in Haccess; try discriminate;
      cbn [get_prop];
      match goal with
      | |- context [fetchProfile ?w0] =>
          destruct (fetchProfile_resolves backend w0) as (w2 & ->)
      end; eauto. }
  rewrite run_login_onSubmit, Hrun.
  eexists _, _. split; [reflexivity|]. repeat split.
  by apply login_resolved_authenticated in Hrun.
Qed.

Lemma run_handle h shown w :
  run backend (handle h shown w) =
  match run backend (perform (handled_mutation h) w) with
  | Some (w1, Resolved _) =>
      Some (w1, Resolved
                  match h with
                  | HandleUpdateQuantity _ _ => shown
                  | HandleRemove _ => shown ++ [ToastSuccess (JStr "Removed")]
                  | HandleAddToCart _ => shown ++ [ToastSuccess (JStr "Added to cart")]
                  end)
  | Some (w1, Rejected e) =>
      Some (w1, Resolved
                  (shown ++
                   [ToastError
                      match h with
                      | HandleUpdateQuantity _ _ =>
                          js_or (opt_prop (error_data e) "error") (JStr "Failed to update")
                      | HandleRemove _ => JStr "Failed to remove"
                      | HandleAddToCart _ =>
                          js_or (opt_prop (error_data e) "error")
                                (JStr "Failed to add to cart")
                      end]))
  | None => None
  end.
Proof.
  destruct h; cbn [handle handled_mutation perform];
    unfold handleUpdateQuantity, handleRemove, handleAddToCart, try_catch;
    rewrite run_catch; unfold bind at 1; rewrite run_bind;
    match goal with
    | |- context [run backend (?m w)] =>
        destruct (run backend (m w)) as [[w1 [u|e]]|]
    end; reflexivity.
Qed.

(** X25: the cart handlers of the pages ([handleUpdateQuantity],
    [handleRemove], [handleAddToCart]) never reject.  When the mutation
    fails the cart is what it was and exactly one error toast is added;
    when it succeeds no error toast is added. *)
Theorem cart_handlers_never_reject (h : CartHandler) (shown : list Toast) (w : World) :
  ∃ w' shown',
    run backend (handle h shown w) = Some (w', Resolved shown')
    ∧ match run backend (perform (handled_mutation h) w) with
      | Some (_, Resolved _) =>
          shown' = shown ∨ ∃ message, shown' = shown ++ [ToastSuccess message]
      | Some (_, Rejected _) =>
          cart (cartStore w') = cart (cartStore w)
          ∧ ∃ message, shown' = shown ++ [ToastError message]
      | None => False
      end.
Proof.
  rewrite run_handle.
  destruct (run backend (perform (handled_mutation h) w))
    as [[w1 [u|e]]|] eqn:Hrun.
  - eexists _, _. split; [reflexivity|]. destruct h; eauto.
  - eexists _, _. split; [reflexivity|].
    apply cart_mutation_rejection_keeps_snapshot in Hrun. eauto.
  - exfalso. rewrite run_perform in Hrun.
    assert (∃ w1 r1, run backend (server_call (handled_mutation h) (cart_loading w))
                     = Some (w1, r1)) as (w1 & r1 & Hcall).
    { destruct h; cbn [handled_mutation server_call]; unfold api_post;
        match goal with
        | |- context [api ?c ?w0] =>
            destruct (api_settles backend c w0) as (w1 & r1 & Hcall & _)
        end; eauto. }
    rewrite Hcall in Hrun. destruct r1 as [response|e]; [|discriminate].
    rewrite run_on_fulfilled in Hrun.
    destruct h; cbn [handled_mutation] in Hrun;
      destruct (get_prop (data response) "cart"); discriminate.
Qed.

Lemma run_fetchOrders ui w :
  run backend (fetchOrders ui w) =
  match run backend (api_get "/orders/" w) with
  | Some (w1, Resolved response) =>
      match get_prop (data response) "results" with
      | Resolved results =>
          Some (w1, Resolved
                      (mkOrdersUI (js_or results (data response)) false
                                  (orders_toasts ui) (orders_pushed ui)
                                  (console_errors ui)))
      | Rejected e =>
          Some (w1, Resolved
                      (mkOrdersUI (orders ui) false
                         (orders_toasts ui ++ [ToastError (JStr "Unable to load orders")])
                         (orders_pushed ui)
                         (console_errors ui ++ [("Failed to fetch orders:", e)])))
      end
  | Some (w1, Rejected e) =>
      Some (w1, Resolved
                  (mkOrdersUI (orders ui) false
                     (orders_toasts ui ++ [ToastError (JStr "Unable to load orders")])
                     (orders_pushed ui)
                     (console_errors ui ++ [("Failed to fetch orders:", e)])))
  | None => None
  end.
Proof.
  unfold fetchOrders. unfold bind at 1. rewrite run_bind.
  unfold try_catch. rewrite run_catch.
  unfold bind at 1. rewrite run_bind.
  destruct (run backend (api_get "/orders/" w)) as [[w1 [response|e]]|];
    try reflexivity.
  unfold bind, settle. destruct (get_prop _ _); reflexivity.
Qed.

(** X26: the orders page's effect never rejects.  When the store says the
    user is not authenticated it pushes ['/login?redirect=/orders'] and
    does nothing else: no request is sent and [isLoading] keeps its value.
    Otherwise it fetches: a fulfilled payload gives its [results] when that
    is truthy and the payload itself when not; any failure (a rejected
    request, a [null] payload) keeps the orders shown and adds the toast
    ['Unable to load orders']; [isLoading] ends [false]. *)
Theorem orders_page_effect (ui : OrdersUI) (w : World) :
  ∃ w' ui',
    run backend (orders_effect ui w) = Some (w', Resolved ui')
    ∧ if isAuthenticated (authStore w) then
        orders_isLoading ui' = false
        ∧ orders_pushed ui' = orders_pushed ui
        ∧ match run backend (api_get "/orders/" w) with
          | Some (_, Resolved response) =>
              match data response with
              | JNull | JUndefined =>
                  orders ui' = orders ui
                  ∧ orders_toasts ui'
                    = orders_toasts ui ++ [ToastError (JStr "Unable to load orders")]
              | payload =>
                  orders ui'
                  = (if truthy (opt_prop payload "results")
                     then opt_prop payload "results" else payload)
                  ∧ orders_toasts ui' = orders_toasts ui
              end
          | Some (_, Rejected _) =>
              orders ui' = orders ui
              ∧ orders_toasts ui'
                = orders_toasts ui ++ [ToastError (JStr "Unable to load orders")]
          | None => False
          end
      else
        w' = w
        ∧ orders_pushed ui' = orders_pushed ui ++ ["/login?redirect=/orders"]
        ∧ orders ui' = orders ui
        ∧ orders_isLoading ui' = orders_isLoading ui
        ∧ orders_toasts ui' = orders_toasts ui.
Proof.
  unfold orders_effect. unfold bind at 1, gets at 1. cbn [step_bind].
  destruct (isAuthenticated (authStore w)); cbn [negb].
  - rewrite run_fetchOrders.
    destruct (api_settles backend (mkConfig GET "/orders/" JUndefined None false) w)
      as (w1 & r & Hrun & _).
    unfold api_get. rewrite Hrun.
    destruct r as [response|e].
    + destruct (data response) eqn:Hdata; cbn [get_prop];
        eexists _, _; (split; [reflexivity|]); repeat split; reflexivity.
    + eexists _, _. split; [reflexivity|]. repeat split; reflexivity.
  - eexists _, _. split; [reflexivity|]. repeat split; reflexivity.
Qed.

End Page_extras.

End Storefront.

(** * Worked examples

    The scenarios above, run with [NEXT_PUBLIC_API_URL] unset. *)



Lemma unrecoverable_error_propagates_witness :
  response_interceptor_rejected None (api None) not_found signed_in
  = Done signed_in (Rejected not_found).
Proof.
  apply unrecoverable_error_propagates. left. simpl. discriminate.
Defined.

(** C2, counterexample: the cart store persists its snapshot under
    ['cart-storage']; a later request is answered 401 and the refresh call
    is rejected.  The purge removes both cookies and ['auth-storage'] and
    sends the tab to ['/login'], but the persisted cart snapshot is still
    in localStorage. *)
Lemma refresh_failure_keeps_cart_snapshot :
  ∃ w1 w2 e,
    run expired_backend (addToCart None 7 None signed_in) = Some (w1, Resolved tt)
    ∧ run expired_backend (api None orders_request w1) = Some (w2, Rejected e)
    ∧ refresh_calls None (net_log w2) = 1%nat
    ∧ Cookies_get "access_token" w2 = None
    ∧ Cookies_get "refresh_token" w2 = None
    ∧ localStorage_getItem "auth-storage" w2 = None
    ∧ location_href w2 = Some "/login"
    ∧ localStorage_getItem "cart-storage" w2
      = Some (JObj [("state", JObj [("cart", cart_with_product_7)]);
                    ("version", JNum 0)]).
Proof.
  eexists _, _, _.
  split; [vm_compute; reflexivity|].
  split; [vm_compute; reflexivity|].
  repeat split; vm_compute; reflexivity.
Qed.

Lemma refresh_failure_purges_session_witness :
  ∃ w',
    run expired_backend
        (response_interceptor_rejected None (api None)
           (AxiosError orders_request (Some unauthorized)) signed_in)
    = Some (w', Rejected (AxiosError (with_retry true orders_request)
                                     (Some unauthorized)))
    ∧ Cookies_get "access_token" w' = None
    ∧ Cookies_get "refresh_token" w' = None
    ∧ localStorage_getItem "auth-storage" w' = None
    ∧ location_href w' = (λ _, "/login") <$> window signed_in
    ∧ localStorage_getItem "cart-storage" w'
      = localStorage_getItem "cart-storage" signed_in
    ∧ (∀ key, key ≠ "auth-storage" →
         localStorage_getItem key w' = localStorage_getItem key signed_in)
    ∧ authStore w' = authStore signed_in
    ∧ cartStore w' = cartStore signed_in
    ∧ (∀ next, outgoing w' next = next).
Proof.
  apply refresh_failure_purges_session.
  - reflexivity.
  - right. exists "r1", (AxiosError (refresh_config None "r1") (Some token_expired)).
    split; reflexivity.
Defined.

(** C3, the failing input: the credential call is fulfilled and the
    profile request that follows is answered 500.  [login] resolves, and
    the store is left with [user = null] and [isAuthenticated = true]. *)
Lemma login_authenticated_despite_profile_failure :
  ∃ w',
    run profile_down_backend (login None "ann@example.org" "secret" anonymous)
    = Some (w', Resolved tt)
    ∧ net_log w'
      = [ViaApi (mkConfig GET "/users/profile/" JUndefined (Some "Bearer a1") false);
         ViaApi (mkConfig POST "/users/login/"
                          (JObj [("email", JStr "ann@example.org");
                                 ("password", JStr "secret")])
                          None false)]
    ∧ (∀ log config,
         url config = "/users/profile/" →
         profile_down_backend log (ViaApi config)
         = reply 500 (JObj [("detail", JStr "Internal server error")]))
    ∧ user (authStore w') = JNull
    ∧ isAuthenticated (authStore w') = true.
Proof.
  eexists. split; [vm_compute; reflexivity|].
  split; [vm_compute; reflexivity|].
  split; [|split; vm_compute; reflexivity].
  intros log config Hurl. simpl. by rewrite Hurl.
Qed.

(** C4, counterexample: the server answers the clear call with the emptied
    cart as its snapshot; the store does not take it, it holds [null]. *)
Lemma clearCart_ignores_server_snapshot :
  ∃ w1 response w',
    run shop_backend (server_call None ClearCart (cart_loading shopping))
    = Some (w1, Resolved response)
    ∧ get_prop (data response) "cart" = Resolved emptied_cart
    ∧ run shop_backend (clearCart None shopping) = Some (w', Resolved tt)
    ∧ cart (cartStore w') = JNull
    ∧ cart (cartStore w') ≠ emptied_cart.
Proof.
  eexists _, _, _.
  split; [vm_compute; reflexivity|].
  split; [vm_compute; reflexivity|].
  split; [vm_compute; reflexivity|].
  split; [vm_compute; reflexivity|].
  vm_compute. discriminate.
Qed.

Lemma cart_is_server_snapshot_witness :
  ∃ w' r,
    run shop_backend (perform None (AddToCart 7 None) signed_in) = Some (w', r)
    ∧ r = Resolved tt
    ∧ cart (cartStore w') = cart_with_product_7.
Proof.
  eapply (cart_is_server_snapshot None shop_backend (AddToCart 7 None) signed_in
            _ (mkResponse 200 (JObj [("cart", cart_with_product_7)]))).
  vm_compute. reflexivity.
Defined.

Lemma cart_mutation_failure_keeps_snapshot_witness :
  ∃ w',
    run refusing_backend (perform None (UpdateQuantity 7 5) shopping)
    = Some (w', Rejected
                  (AxiosError
                     (mkConfig POST "/cart/update/"
                               (JObj [("product_id", JNum 7); ("quantity", JNum 5)])
                               (Some "Bearer stale") false)
                     (Some out_of_stock)))
    ∧ cart (cartStore w') = cart (cartStore shopping).
Proof.
  eapply (cart_mutation_failure_keeps_snapshot None refusing_backend
            (UpdateQuantity 7 5) shopping).
  vm_compute. reflexivity.
Defined.

Lemma login_failure_leaves_state_witness :
  ∃ w',
    run credential_refusing_backend (login None "ann@example.org" "wrong" anonymous)
    = Some (w', Rejected
                  (AxiosError
                     (mkConfig POST "/users/login/"
                               (JObj [("email", JStr "ann@example.org");
                                      ("password", JStr "wrong")])
                               None false)
                     (Some bad_credentials)))
    ∧ user (authStore w') = user (authStore anonymous)
    ∧ isAuthenticated (authStore w') = isAuthenticated (authStore anonymous).
Proof.
  eapply (login_failure_leaves_state None credential_refusing_backend
            "ann@example.org" "wrong" anonymous).
  vm_compute. reflexivity.
Defined.


Lemma concurrent_401s_each_refresh_witness :
  (in_flight (deliver_all crossed_schedule
                (issue_all None three_requests (mkLoop signed_in [] [])))).*1
  = replicate (length three_requests) (refresh_call None "r1")
  ∧ refresh_calls None
      (net_log (loop_world (deliver_all crossed_schedule
                              (issue_all None three_requests
                                         (mkLoop signed_in [] [])))))
    = (refresh_calls None (net_log signed_in) + length three_requests)%nat
  ∧ settled (deliver_all crossed_schedule
               (issue_all None three_requests (mkLoop signed_in [] []))) = [].
Proof.
  apply (concurrent_401s_each_refresh None "r1" eq_refl
           three_requests crossed_schedule signed_in).
  - reflexivity.
  - repeat constructor.
  - simpl. repeat split; lia.
  - reflexivity.
Defined.

(** * Worked examples for the further properties *)

Lemma refresh_is_transparent_witness :
  ∃ w' reissued,
    run rotating_backend (api None orders_request signed_in)
    = Some (w', Resolved orders_payload)
    ∧ net_log w'
      = [ViaApi reissued; refresh_call None "r1";
         ViaApi (outgoing signed_in orders_request)] ++ net_log signed_in
    ∧ Authorization reissued = Some ("Bearer " +:+ js_to_string (JStr "fresh"))
    ∧ url reissued = url orders_request
    ∧ method reissued = method orders_request
    ∧ body reissued = body orders_request
    ∧ Cookies_get "access_token" w' = Some (js_to_string (JStr "fresh"))
    ∧ Cookies_get "refresh_token" w' = Some "r1"
    ∧ location_href w' = location_href signed_in
    ∧ authStore w' = authStore signed_in
    ∧ cartStore w' = cartStore signed_in.
Proof.
  apply (refresh_is_transparent None rotating_backend orders_request signed_in
           "r1" unauthorized (mkResponse 200 (JObj [("access", JStr "fresh")]))
           orders_payload (JStr "fresh")); try reflexivity.
  intros log c Hc. simpl in *. by rewrite Hc.
Defined.

Lemma fulfilled_request_touches_nothing_witness :
  ∃ sent_config,
    run shop_backend (api None orders_request signed_in)
    = Some (sent (ViaApi sent_config) signed_in, Resolved cart_after_update)
    ∧ method sent_config = method orders_request
    ∧ url sent_config = url orders_request
    ∧ body sent_config = body orders_request
    ∧ Authorization sent_config
      = match Cookies_get "access_token" signed_in with
        | Some token =>
            if String.eqb token "" then Authorization orders_request
            else Some ("Bearer " +:+ token)
        | None => Authorization orders_request
        end.
Proof.
  apply (fulfilled_request_touches_nothing None shop_backend orders_request
           signed_in cart_after_update); reflexivity.
Defined.

Lemma missing_refresh_token_sends_nothing_witness :
  ∃ w',
    run rejecting_backend (api None orders_request anonymous)
    = Some (w', Rejected (AxiosError
                            (with_retry true (outgoing anonymous orders_request))
                            (Some unauthorized)))
    ∧ net_log w' = ViaApi (outgoing anonymous orders_request) :: net_log anonymous
    ∧ Cookies_get "access_token" w' = None
    ∧ Cookies_get "refresh_token" w' = None
    ∧ localStorage_getItem "auth-storage" w' = None
    ∧ location_href w' = (λ _, "/login") <$> window anonymous.
Proof.
  apply (missing_refresh_token_sends_nothing None rejecting_backend); try reflexivity.
  by left.
Defined.

Lemma refresh_without_payload_forces_logout_witness :
  ∃ w',
    run hollow_refresh_backend (api None orders_request signed_in)
    = Some (w', Rejected (AxiosError
                            (with_retry true (outgoing signed_in orders_request))
                            (Some unauthorized)))
    ∧ net_log w'
      = [refresh_call None "r1"; ViaApi (outgoing signed_in orders_request)]
        ++ net_log signed_in
    ∧ Cookies_get "access_token" w' = None
    ∧ Cookies_get "refresh_token" w' = None
    ∧ localStorage_getItem "auth-storage" w' = None
    ∧ location_href w' = (λ _, "/login") <$> window signed_in.
Proof.
  apply (refresh_without_payload_forces_logout None hollow_refresh_backend
           orders_request signed_in "r1" unauthorized (mkResponse 200 JNull));
    try reflexivity.
  by left.
Defined.

Lemma refresh_without_access_key_witness :
  ∃ w' r reissued,
    run misnamed_refresh_backend (api None orders_request signed_in) = Some (w', r)
    ∧ net_log w'
      = [ViaApi reissued; refresh_call None "r1";
         ViaApi (outgoing signed_in orders_request)] ++ net_log signed_in
    ∧ Authorization reissued = Some "Bearer undefined"
    ∧ Cookies_get "access_token" w' = Some "undefined"
    ∧ Cookies_get "refresh_token" w' = Some "r1".
Proof.
  apply (refresh_without_access_key None misnamed_refresh_backend
           orders_request signed_in "r1" unauthorized
           (mkResponse 200 (JObj [("token", JStr "fresh")])));
    reflexivity.
Defined.

Lemma register_stores_user_and_tokens_witness :
  ∃ w1 w',
    run registering_backend (register None registration anonymous)
    = Some (w', Resolved tt)
    ∧ user (authStore w') = new_user
    ∧ isAuthenticated (authStore w') = true
    ∧ auth_isLoading (authStore w') = false
    ∧ Cookies_get "access_token" w' = (λ _, "a2") <$> window w1
    ∧ Cookies_get "refresh_token" w' = (λ _, "r2") <$> window w1
    ∧ net_log w' = net_log w1.
Proof.
  eexists.
  eapply (register_stores_user_and_tokens None registering_backend registration
            anonymous _
            (mkResponse 201
               (JObj [("tokens", JObj [("access", JStr "a2"); ("refresh", JStr "r2")]);
                      ("user", new_user)]))
            (JObj [("access", JStr "a2"); ("refresh", JStr "r2")]) (JStr "a2")).
  - vm_compute. reflexivity.
  - reflexivity.
  - reflexivity.
Defined.


Lemma register_malformed_payload_writes_no_cookie_witness :
  ∃ w1 w' msg,
    run tokenless_backend (register None registration anonymous)
    = Some (w', Rejected (TypeError msg))
    ∧ (∀ name, Cookies_get name w' = Cookies_get name w1)
    ∧ user (authStore w') = user (authStore anonymous)
    ∧ isAuthenticated (authStore w') = isAuthenticated (authStore anonymous).
Proof.
  eexists.
  eapply (register_malformed_payload_writes_no_cookie None tokenless_backend
            registration anonymous _ (mkResponse 201 (JObj [("user", new_user)]))).
  - vm_compute. reflexivity.
  - right. by right.
Defined.

Lemma login_stores_profile_witness :
  ∃ w1 w',
    run welcoming_backend (login None "ann@example.org" "secret" anonymous)
    = Some (w', Resolved tt)
    ∧ user (authStore w') = ann_profile
    ∧ isAuthenticated (authStore w') = true
    ∧ auth_isLoading (authStore w') = false
    ∧ Cookies_get "access_token" w' = Some "a1"
    ∧ Cookies_get "refresh_token" w' = Some "r1"
    ∧ net_log w'
      = ViaApi (mkConfig GET "/users/profile/" JUndefined (Some "Bearer a1") false)
        :: net_log w1.
Proof.
  eexists.
  eapply (login_stores_profile None welcoming_backend "ann@example.org" "secret"
            anonymous _
            (mkResponse 200 (JObj [("access", JStr "a1"); ("refresh", JStr "r1")]))
            (mkResponse 200 ann_profile) (JStr "a1") (JStr "r1")).
  - vm_compute. reflexivity.
  - reflexivity.
  - reflexivity.
  - vm_compute. eauto.
  - reflexivity.
  - reflexivity.
  - reflexivity.
Defined.


Lemma auth_actions_leave_cart_witness :
  ∃ w',
    run expired_backend (auth_action None Logout shopping) = Some (w', Resolved tt)
    ∧ cartStore w' = cartStore shopping
    ∧ localStorage_getItem "cart-storage" w'
      = localStorage_getItem "cart-storage" shopping.
Proof.
  eexists. split; [vm_compute; reflexivity|].
  eapply (auth_actions_leave_cart None expired_backend Logout shopping _
            (Resolved tt)).
  vm_compute. reflexivity.
Defined.


Lemma cart_actions_leave_auth_state_witness :
  ∃ w',
    run expired_backend (cart_action None FetchCart signed_in) = Some (w', Resolved tt)
    ∧ authStore w' = authStore signed_in.
Proof.
  eexists. split; [vm_compute; reflexivity|].
  eapply (cart_actions_leave_auth_state None expired_backend FetchCart signed_in _
            (Resolved tt)).
  vm_compute. reflexivity.
Defined.

Lemma last_response_wins_witness :
  cart (cartStore (loop_world
         (deliver 0 (Reply cart_after_remove)
            (deliver 0 (Reply cart_after_update)
               (two_in_flight None (UpdateQuantity 7 5) (RemoveFromCart 7) shopping)))))
  = emptied_cart
  ∧ cart (cartStore (loop_world
         (deliver 0 (Reply cart_after_update)
            (deliver 1 (Reply cart_after_remove)
               (two_in_flight None (UpdateQuantity 7 5) (RemoveFromCart 7) shopping)))))
    = cart_with_product_7.
Proof.
  destruct (last_response_wins None (UpdateQuantity 7 5) (RemoveFromCart 7) shopping
              cart_after_update cart_after_remove cart_with_product_7 emptied_cart
              eq_refl eq_refl eq_refl eq_refl) as (Hin & Hcrossed & _).
  split; [exact Hin|exact Hcrossed].
Defined.

Lemma isLoading_clears_with_request_in_flight_witness :
  cart_isLoading (cartStore (loop_world
     (two_in_flight None (UpdateQuantity 7 5) (RemoveFromCart 7) shopping))) = true
  ∧ cart_isLoading (cartStore (loop_world
       (deliver 1 (Reply cart_after_remove)
          (two_in_flight None (UpdateQuantity 7 5) (RemoveFromCart 7) shopping))))
    = false.
Proof.
  destruct (isLoading_clears_with_request_in_flight None
              (UpdateQuantity 7 5) (RemoveFromCart 7) shopping
              cart_after_remove emptied_cart eq_refl eq_refl)
    as (Hbefore & Hafter & _).
  split; [exact Hbefore|exact Hafter].
Defined.

Lemma login_page_welcomes_on_accepted_credentials_witness :
  ∃ w' ui',
    run profile_down_backend
        (login_onSubmit None "ann@example.org" "secret" login_form anonymous)
    = Some (w', Resolved ui')
    ∧ toasts ui' = toasts login_form ++ [ToastSuccess (JStr "Welcome back.")]
    ∧ pushed ui' = pushed login_form ++ ["/"]
    ∧ isSubmitting ui' = false
    ∧ isAuthenticated (authStore w') = true.
Proof.
  eapply (login_page_welcomes_on_accepted_credentials None profile_down_backend
            "ann@example.org" "secret" login_form anonymous _
            (mkResponse 200 (JObj [("access", JStr "a1"); ("refresh", JStr "r1")]))
            (JStr "a1")).
  - vm_compute. reflexivity.
  - reflexivity.
Defined.
